(** * Munki compatibility conditions: Yosemite (10.10) and High Sierra (10.13)

    A shallow embedding of the two condition scripts

      package-root/usr/local/munki/conditions/check-10.10-yosemite-compatibility.py
      package-root/usr/local/munki/conditions/check-10.13-highsierra-compatibility.py

    Both are Python 2 scripts.  Each function of a script that queries the
    machine (through [subprocess] or [plistlib]) is embedded as a function of
    a [host] record holding the raw answers of those queries; printing and the
    ConditionalItems.plist file are embedded as an explicit [world] threaded
    through a small state-and-exception monad. *)

From Stdlib Require Import ZArith String Ascii DecimalString DecimalPos DecimalZ.
From stdpp Require Import gmap strings list fin_maps.

Set Warnings "-register-all".
Local Open Scope string_scope.
Local Open Scope Z_scope.

(* ===================================================================== *)
(** ** The fragment of Python 2 the scripts rely on *)
(* ===================================================================== *)

Module Py.

(** The double quote and the newline, written by code. *)
Definition dq : ascii := "034"%char.
Definition nl : ascii := "010"%char.

(** [str.isspace] for one byte in the C locale: space, \t, \n, \v, \f, \r. *)
Definition is_space (c : ascii) : bool :=
  let n := nat_of_ascii c in
  (n =? 32)%nat || ((9 <=? n)%nat && (n <=? 13)%nat).

Definition is_digit (c : ascii) : bool :=
  let n := nat_of_ascii c in
  (48 <=? n)%nat && (n <=? 57)%nat.

Definition digit_value (c : ascii) : Z := Z.of_nat (nat_of_ascii c) - 48.

(** [bool(s)] for a string: true exactly when [s] is not empty. *)
Definition bool_of_str (s : string) : bool :=
  match s with
  | EmptyString => false
  | String _ _ => true
  end.

Fixpoint lstrip (s : string) : string :=
  match s with
  | EmptyString => EmptyString
  | String c s' => if is_space c then lstrip s' else s
  end.

Fixpoint rstrip (s : string) : string :=
  match s with
  | EmptyString => EmptyString
  | String c s' =>
      let r := rstrip s' in
      if is_space c && negb (bool_of_str r) then EmptyString else String c r
  end.

(** [s.strip()] *)
Definition strip (s : string) : string := lstrip (rstrip s).

(** [s.split()]: the maximal runs of non-blank characters, in order.
    [cur] is the run being read. *)
Fixpoint split_from (cur : string) (s : string) : list string :=
  match s with
  | EmptyString => if bool_of_str cur then [cur] else []
  | String c s' =>
      if is_space c
      then (if bool_of_str cur then cur :: split_from EmptyString s'
            else split_from EmptyString s')
      else split_from (cur +:+ String c EmptyString) s'
  end.

Definition split (s : string) : list string := split_from EmptyString s.

(** [s.startswith(p)] *)
Definition startswith (s p : string) : bool := String.prefix p s.

(** The longest prefix of decimal digits, and what follows it. *)
Fixpoint span_digits (s : string) : string * string :=
  match s with
  | EmptyString => (EmptyString, EmptyString)
  | String c s' =>
      if is_digit c
      then let '(d, r) := span_digits s' in (String c d, r)
      else (EmptyString, s)
  end.

(** The value of a string of decimal digits ([string.atoi] on digits). *)
Fixpoint atoi_from (acc : Z) (s : string) : Z :=
  match s with
  | EmptyString => acc
  | String c s' => atoi_from (10 * acc + digit_value c) s'
  end.

Definition atoi (digits : string) : Z := atoi_from 0 digits.

(** [int(s)] on a string: blanks around are dropped, one optional sign, then
    one or more decimal digits and nothing else; [None] stands for the
    [ValueError] Python raises on anything else. *)
Definition int_of_str (s : string) : option Z :=
  let t := strip s in
  let '(neg, body) :=
    match t with
    | String "-" r => (true, r)
    | String "+" r => (false, r)
    | _ => (false, t)
    end in
  match span_digits body with
  | (String c d, EmptyString) =>
      let v := atoi (String c d) in Some (if neg then - v else v)
  | _ => None
  end.

(** ["%i" % n] and ["%s" % n] for an integer. *)
Definition str_of_int (n : Z) : string := NilZero.string_of_int (Z.to_int n).

Fixpoint spaces (n : nat) : string :=
  match n with
  | O => EmptyString
  | S n' => String " " (spaces n')
  end.

(** ["%<w>s" % s]: right-justified in a field of [w]. *)
Definition rjust (w : nat) (s : string) : string :=
  spaces (w - String.length s) +:+ s.

(** ["%-<w>s" % s]: left-justified in a field of [w]. *)
Definition ljust (w : nat) (s : string) : string :=
  s +:+ spaces (w - String.length s).

(** ["%s" % x] where [x] is a string or [None]. *)
Definition str_of_opt (x : option string) : string :=
  match x with
  | Some s => s
  | None => "None"
  end.

(** [x in l] for a list of strings [l]; [None] equals no string. *)
Definition in_list (x : option string) (l : list string) : bool :=
  match x with
  | Some s => existsb (String.eqb s) l
  | None => false
  end.

(** [os.path.join(a, b)] for a relative [b] (posixpath). *)
Definition path_join (a b : string) : string :=
  match String.get (String.length a - 1) a with
  | Some "/"%char => a +:+ b
  | Some _ => a +:+ "/" +:+ b
  | None => b
  end.

(** [cmp] on integers, as -1, 0 or 1. *)
Definition cmp_int (a b : Z) : Z :=
  match a ?= b with
  | Lt => -1
  | Eq => 0
  | Gt => 1
  end.

Fixpoint strip_prefix (p s : string) : option string :=
  match p, s with
  | EmptyString, _ => Some s
  | String a p', String b s' => if Ascii.eqb a b then strip_prefix p' s' else None
  | String _ _, EmptyString => None
  end.

(** [strip_suffix suf s = Some x] exactly when [s] is [x] followed by [suf]. *)
Fixpoint strip_suffix (suf s : string) : option string :=
  if String.eqb s suf then Some EmptyString
  else match s with
       | EmptyString => None
       | String c s' => option_map (String c) (strip_suffix suf s')
       end.

Fixpoint contains_char (c : ascii) (s : string) : bool :=
  match s with
  | EmptyString => false
  | String a s' => Ascii.eqb a c || contains_char c s'
  end.

(** *** [distutils.version.StrictVersion] (Python 2.7 standard library)

    A version is [major.minor] or [major.minor.patch], optionally followed by
    a pre-release tag [a<N>] or [b<N>]; a missing patch level is 0. *)

Record strict_version := {
  version : Z * Z * Z;
  prerelease : option (ascii * Z)
}.

(** The optional group [([ab](\d+))?] of [version_re], then [$] (the end of
    the string, or a newline that ends it). *)
Definition parse_tail (v : Z * Z * Z) (s : string) : option strict_version :=
  let at_end (r : string) :=
    match r with
    | EmptyString => true
    | String c EmptyString => Ascii.eqb c nl
    | _ => false
    end in
  match s with
  | String c r =>
      if Ascii.eqb c "a" || Ascii.eqb c "b"
      then match span_digits r with
           | (String d ds, r') =>
               if at_end r'
               then Some {| version := v; prerelease := Some (c, atoi (String d ds)) |}
               else None
           | _ => None
           end
      else if at_end s then Some {| version := v; prerelease := None |} else None
  | EmptyString => Some {| version := v; prerelease := None |}
  end.

(** [StrictVersion.parse]: [None] stands for
    [ValueError("invalid version number ...")]. *)
Definition parse_version (vstring : string) : option strict_version :=
  match span_digits vstring with
  | (String a major, String "." r1) =>
      match span_digits r1 with
      | (String b minor, r2) =>
          match r2 with
          | String "." r3 =>
              match span_digits r3 with
              | (String c patch, r4) =>
                  parse_tail (atoi (String a major), atoi (String b minor),
                              atoi (String c patch)) r4
              | _ => None
              end
          | _ => parse_tail (atoi (String a major), atoi (String b minor), 0) r2
          end
      | _ => None
      end
  | _ => None
  end.

(** [cmp] on the version tuples: lexicographic, by integer value. *)
Definition cmp_tuple (a b : Z * Z * Z) : Z :=
  let '(a1, a2, a3) := a in
  let '(b1, b2, b3) := b in
  if negb (a1 =? b1) then cmp_int a1 b1
  else if negb (a2 =? b2) then cmp_int a2 b2
  else cmp_int a3 b3.

Definition cmp_prerelease (a b : ascii * Z) : Z :=
  let '(ca, na) := a in
  let '(cb, nb) := b in
  if negb (Ascii.eqb ca cb)
  then cmp_int (Z.of_nat (nat_of_ascii ca)) (Z.of_nat (nat_of_ascii cb))
  else cmp_int na nb.

(** [StrictVersion.__cmp__] *)
Definition version_cmp (self other : strict_version) : Z :=
  let compare := cmp_tuple (version self) (version other) in
  if compare =? 0 then
    match prerelease self, prerelease other with
    | None, None => 0
    | Some _, None => -1
    | None, Some _ => 1
    | Some p, Some q => cmp_prerelease p q
    end
  else compare.

(** [self >= other], which Python 2 answers through [__cmp__]. *)
Definition version_ge (self other : strict_version) : bool :=
  0 <=? version_cmp self other.

(** [cmp(StrictVersion(a), StrictVersion(b))] on two version strings. *)
Definition compare (a b : string) : option Z :=
  match parse_version a, parse_version b with
  | Some x, Some y => Some (version_cmp x y)
  | _, _ => None
  end.

End Py.

(* ===================================================================== *)
(** ** The machine, the files and the effects *)
(* ===================================================================== *)

(** What the machine answers to each query the scripts make.  The commands
    are taken to exist and to run; a field holds their standard output (or,
    for [pkgutil], whether the return code is 0).  SystemVersion.plist is a
    file of the operating system: its two entries read by the scripts are
    fields here. *)
Record host := {
  (** [ioreg -p IODeviceTree -r -n / -d 1 | grep board-id] *)
  ioreg_board_id : string;
  (** [sysctl -n machdep.cpu.features] *)
  sysctl_cpu_features : string;
  (** [sysctl -n hw.cpu64bit_capable] *)
  sysctl_cpu64bit_capable : string;
  (** [sysctl -n hw.memsize] *)
  sysctl_memsize : string;
  (** [sysctl -n hw.model] *)
  sysctl_model : string;
  (** SystemVersion.plist *)
  ProductName : string;
  ProductVersion : string;
  (** [pkgutil --pkg-info com.googlecode.munki.core] returned 0 *)
  pkg_munki_core : bool;
  (** [pkgutil --pkg-info com.mac-msp.gruntwork.munki3] returned 0 *)
  pkg_gruntwork_munki3 : bool;
  (** [CFPreferencesCopyAppValue('ManagedInstallDir', 'ManagedInstalls')] *)
  pref_ManagedInstallDir : option string;
  (** [defaults read /Library/Preferences/ManagedInstalls ManagedInstallDir] *)
  defaults_ManagedInstallDir : string
}.

(** Property-list values; a dictionary is a finite map on strings. *)
Inductive plist_value :=
| PBool (b : bool)
| PInteger (z : Z)
| PString (s : string)
| PArray (l : list plist_value)
| PDict (d : gmap string plist_value).

Inductive file :=
| PlistFile (root : plist_value)
| OtherFile.

(** Lines printed so far, the files by path, and the paths that cannot be
    opened for writing. *)
Record world := {
  stdout : list string;
  fs : gmap string file;
  locked : gset string
}.

Inductive exn :=
| ValueError (msg : string)
| IOError (path : string)
| ExpatError (path : string)
| AttributeError (msg : string).

(** A call returns a value or raises; either way the world goes on from where
    the call left it. *)
Inductive outcome (A : Type) :=
| Return (a : A) (w : world)
| Raise (e : exn) (w : world).

Arguments Return {A} a w.
Arguments Raise {A} e w.

Definition M (A : Type) : Type := world -> outcome A.

Definition ret {A} (a : A) : M A := fun w => Return a w.

Definition bind {A B} (m : M A) (k : A -> M B) : M B :=
  fun w =>
    match m w with
    | Return a w' => k a w'
    | Raise e w' => Raise e w'
    end.

Definition raise {A} (e : exn) : M A := fun w => Raise e w.

Notation "x <- m ;; k" := (bind m (fun x => k))
  (at level 100, m at next level, right associativity).
Notation "m ;;; k" := (bind m (fun _ => k))
  (at level 100, right associativity).

Definition world_of {A} (o : outcome A) : world :=
  match o with
  | Return _ w => w
  | Raise _ w => w
  end.

(** [print line] *)
Definition print (line : string) : M unit :=
  fun w => Return tt {| stdout := stdout w ++ [line]; fs := fs w; locked := locked w |}.

(** [os.path.exists(path)] *)
Definition path_exists (path : string) : M bool :=
  fun w => Return (bool_decide (is_Some (fs w !! path))) w.

(** [plistlib.readPlist(path)] *)
Definition readPlist (path : string) : M plist_value :=
  fun w =>
    match fs w !! path with
    | Some (PlistFile root) => Return root w
    | Some OtherFile => Raise (ExpatError path) w
    | None => Raise (IOError path) w
    end.

(** [plistlib.writePlist(rootObject, path)] *)
Definition writePlist (rootObject : plist_value) (path : string) : M unit :=
  fun w =>
    if bool_decide (path ∈ locked w) then Raise (IOError path) w
    else Return tt {| stdout := stdout w;
                      fs := <[path := PlistFile rootObject]> (fs w);
                      locked := locked w |}.

(** [d.items()]; only a dictionary has it. *)
Definition items (d : plist_value) : M (list (string * plist_value)) :=
  match d with
  | PDict m => ret (map_to_list m)
  | _ => raise (AttributeError "items")
  end.

(** [dict(pairs)]: of two pairs with one key, the later one stays. *)
Definition dict (pairs : list (string * plist_value)) : gmap string plist_value :=
  list_to_map (rev pairs).

(** An instance of [StrictVersion].  [Version.__init__] is
    [if vstring: self.parse(vstring)]: the instance built from the empty
    string is not parsed and has no [version] attribute. *)
Inductive version_instance :=
| Parsed (v : Py.strict_version)
| Unparsed.

(** [StrictVersion(vstring)] *)
Definition StrictVersion (vstring : string) : M version_instance :=
  match vstring with
  | EmptyString => ret Unparsed
  | String _ _ =>
      match Py.parse_version vstring with
      | Some v => ret (Parsed v)
      | None => raise (ValueError ("invalid version number '" +:+ vstring +:+ "'"))
      end
  end.

(** [self >= other] on two instances, answered by [__cmp__], which reads
    [self.version] and [other.version]: an instance that was not parsed
    makes it raise AttributeError. *)
Definition StrictVersion_ge (self other : version_instance) : M bool :=
  match self, other with
  | Parsed a, Parsed b => ret (Py.version_ge a b)
  | _, _ => raise (AttributeError "StrictVersion instance has no attribute 'version'")
  end.

(** [int(s)]; the message of the ValueError carries the text as it is, where
    Python prints its [repr]. *)
Definition int (s : string) : M Z :=
  match Py.int_of_str s with
  | Some n => ret n
  | None => raise (ValueError ("invalid literal for int() with base 10: " +:+ s))
  end.

(** [sys.exit(main())] at the foot of each script: the status [main] returns,
    or, when an exception leaves [main] uncaught, the interpreter's traceback
    and status 1. *)
Definition exit_status (o : outcome Z) : Z :=
  match o with
  | Return status _ => status
  | Raise _ _ => 1
  end.

(* ===================================================================== *)
(** ** Functions whose text is the same in both scripts *)
(* ===================================================================== *)

Module Common.

(** The [re.sub] call of [get_board_id].  Its pattern is anchored at both
    ends: blanks, then the key board-id in double quotes, then [ = <] and a
    double quote, then a group of any characters but newlines, then a double
    quote and [>], at the end of the string or before a newline that ends
    it.  When [results] has that shape the matched part is replaced by the
    group; otherwise [results] is returned as it is. *)
Definition re_sub_board_id (results : string) : string :=
  let opening :=
    String Py.dq ("board-id" +:+ String Py.dq (" = <" +:+ String Py.dq EmptyString)) in
  let closing := String Py.dq ">" in
  let newline := String Py.nl EmptyString in
  match Py.strip_prefix opening (Py.lstrip results) with
  | None => results
  | Some rest =>
      let '(body, tail) :=
        match Py.strip_suffix newline rest with
        | Some b => (b, newline)
        | None => (rest, EmptyString)
        end in
      match Py.strip_suffix closing body with
      | Some x => if Py.contains_char Py.nl x then results else x +:+ tail
      | None => results
      end
  end.

(** The format of [logger]: the label right-justified in 14 columns, a
    colon, the status left-justified in 40 columns, the result in
    brackets. *)
Definition format_line (message status info : string) : string :=
  Py.rjust 14 message +:+ ": " +:+ Py.ljust 40 status +:+ " [" +:+ info +:+ "]".

(** A text between double quotes. *)
Definition quoted (s : string) : string :=
  String Py.dq s +:+ String Py.dq EmptyString.

Section Shared.

(** The module-level [verbose] flag and the script's own
    [conditional_items_path]. *)
Variable verbose : bool.
Variable conditional_items_path : host -> M string.

Definition logger (message status info : string) : M unit :=
  if verbose then print (format_line message status info) else ret tt.

Definition munki_installed (h : host) : M bool :=
  if pkg_munki_core h then ret true else ret false.

Definition get_board_id (h : host) : M (option string) :=
  let results := ioreg_board_id h in
  let board_id := re_sub_board_id results in
  let board_id := Py.strip board_id in
  if Py.startswith board_id "Mac" then ret (Some board_id) else ret None.

(** The [for feature in results.split()] loop of [is_virtual_machine]. *)
Fixpoint is_virtual_machine_loop (features : list string) : M bool :=
  match features with
  | [] => ret false
  | feature :: rest =>
      if String.eqb feature "VMM"
      then logger "Board ID" "Virtual machine" "OK";;; ret true
      else is_virtual_machine_loop rest
  end.

Definition is_virtual_machine (h : host) : M bool :=
  let results := sysctl_cpu_features h in
  is_virtual_machine_loop (Py.split results).

Definition append_conditional_items (h : host)
    (dictionary : gmap string plist_value) : M unit :=
  current_conditional_items_path <- conditional_items_path h;;
  present <- path_exists current_conditional_items_path;;
  output_dict <-
    (if present : bool
     then existing_dict <- readPlist current_conditional_items_path;;
          existing_items <- items existing_dict;;
          ret (dict (existing_items ++ map_to_list dictionary))
     else ret dictionary);;
  writePlist (PDict output_dict) current_conditional_items_path.

End Shared.

End Common.

(* ===================================================================== *)
(** ** check-10.10-yosemite-compatibility.py *)
(* ===================================================================== *)

Module Yosemite.

Definition verbose : bool := true.
Definition update_munki_conditional_items : bool := false.

Definition logger := Common.logger verbose.

Definition conditional_items_path (h : host) : M string :=
  let managed_installs_dir := pref_ManagedInstallDir h in
  match managed_installs_dir with
  | Some (String c d) => ret (Py.path_join (String c d) "ConditionalItems.plist")
  | _ => ret "/Library/Managed Installs/ConditionalItems.plist"
  end.

Definition munki_installed := Common.munki_installed.

Definition is_system_version_supported (h : host) : M bool :=
  let product_name := ProductName h in
  let product_version := ProductVersion h in
  v <- StrictVersion product_version;;
  upper <- StrictVersion "10.10";;
  too_new <- StrictVersion_ge v upper;;
  if too_new : bool
  then logger "System" (product_name +:+ " " +:+ product_version) "Failed";;;
       ret false
  else
    v' <- StrictVersion product_version;;
    lower <- StrictVersion "10.6.6";;
    new_enough <- StrictVersion_ge v' lower;;
    if new_enough : bool
    then logger "System" (product_name +:+ " " +:+ product_version) "OK";;;
         ret true
    else logger "System" (product_name +:+ " " +:+ product_version) "Failed";;;
         ret false.

Definition get_board_id := Common.get_board_id.

Definition is_64bit_capable (h : host) : M bool :=
  let results := sysctl_cpu64bit_capable h in
  if Py.bool_of_str results
  then logger "CPU" "64 bit capable" "OK";;; ret true
  else logger "CPU" "not 64 bit capable" "Failed";;; ret false.

Definition has_required_amount_of_memory (h : host) : M bool :=
  let minimum_memory := 2048 * 1024 * 1024 in
  let results := sysctl_memsize h in
  actual_memory <- int results;;
  let actual_memory_gigabytes := actual_memory / 1024 / 1024 / 1024 in
  if minimum_memory <=? actual_memory
  then logger "Memory"
         (Py.str_of_int actual_memory_gigabytes +:+ " GB physical memory installed")
         "OK";;;
       ret true
  else logger "Memory"
         (Py.str_of_int actual_memory_gigabytes +:+ " GB installed, 2 GB required")
         "Failed";;;
       ret false.

Definition is_virtual_machine := Common.is_virtual_machine verbose.

(** The list literal of [is_supported_board_id].  No comma follows
    ["Mac-F2218EC8"] in the script, so Python joins it with the literal on
    the next line into one entry. *)
Definition platform_support_values : list string :=
  [ "Mac-00BE6ED71E35EB86"; "Mac-031AEE4D24BFF0B1"; "Mac-031B6874CF7F642A";
    "Mac-189A3D4F975D5FFC"; "Mac-27ADBB7B4CEE8E61"; "Mac-2BD1B31983FE1663";
    "Mac-2E6FAB96566FE58C"; "Mac-35C1E88140C3E6CF"; "Mac-35C5E08120C7EEAF";
    "Mac-3CBD00234E554E41"; "Mac-42FD25EABCABB274"; "Mac-4B7AC7E43945597E";
    "Mac-4BC72D62AD45599E"; "Mac-50619A408DB004DA"; "Mac-66F35F19FE2A0D05";
    "Mac-6F01561E16C75D06"; "Mac-742912EFDBEE19B3"; "Mac-77EB7D7DAF985301";
    "Mac-7BA5B2794B2CDB12"; "Mac-7DF21CB3ED6977E5"; "Mac-7DF2A3B5E5D671ED";
    "Mac-81E3E92DD6088272"; "Mac-8ED6AF5B48C039E1"; "Mac-942452F5819B1C1B";
    "Mac-942459F5819B171B"; "Mac-94245A3940C91C80"; "Mac-94245B3640C91C81";
    "Mac-942B59F58194171B"; "Mac-942B5BF58194151B"; "Mac-942C5DF58193131B";
    "Mac-AFD8A9D944EA4843"; "Mac-C08A6BB70A942AC2"; "Mac-C3EC7CD22292981F";
    "Mac-F2208EC8"; "Mac-F2218EA9";
    "Mac-F2218EC8" +:+ "Mac-F2218FA9";
    "Mac-F2218FC8"; "Mac-F221BEC8"; "Mac-F221DCC8"; "Mac-F222BEC8";
    "Mac-F2238AC8"; "Mac-F2238BAE"; "Mac-F223BEC8"; "Mac-F22586C8";
    "Mac-F22587A1"; "Mac-F22587C8"; "Mac-F22589C8"; "Mac-F2268AC8";
    "Mac-F2268CC8"; "Mac-F2268DAE"; "Mac-F2268DC8"; "Mac-F2268EC8";
    "Mac-F226BEC8"; "Mac-F22788AA"; "Mac-F227BEC8"; "Mac-F22C86C8";
    "Mac-F22C89C8"; "Mac-F22C8AC8"; "Mac-F42386C8"; "Mac-F42388C8";
    "Mac-F4238BC8"; "Mac-F4238CC8"; "Mac-F42C86C8"; "Mac-F42C88C8";
    "Mac-F42C89C8"; "Mac-F42D86A9"; "Mac-F42D86C8"; "Mac-F42D88C8";
    "Mac-F42D89A9"; "Mac-F42D89C8"; "Mac-F60DEB81FF30ACF6";
    "Mac-F65AE981FFA204ED"; "Mac-FA842E06C61E91C5"; "Mac-FC02E91DDD3FA6A4" ].

Definition is_supported_board_id (h : host) : M bool :=
  vm <- is_virtual_machine h;;
  if vm : bool then ret true
  else
    board_id <- get_board_id h;;
    if Py.in_list board_id platform_support_values
    then logger "Board ID" (Py.str_of_opt board_id) "OK";;; ret true
    else logger "Board ID"
           (Common.quoted (Py.str_of_opt board_id) +:+ " is not supported")
           "Failed";;;
         ret false.

Definition append_conditional_items :=
  Common.append_conditional_items conditional_items_path.

Definition main (h : host) : M Z :=
  board_id_passed <- is_supported_board_id h;;
  memory_passed <- has_required_amount_of_memory h;;
  cpu_passed <- is_64bit_capable h;;
  system_version_passed <- is_system_version_supported h;;
  let '(yosemite_supported, yosemite_supported_dict) :=
    if board_id_passed && memory_passed && cpu_passed && system_version_passed
    then (0, {[ "yosemite_supported" := PBool true ]} : gmap string plist_value)
    else (1, {[ "yosemite_supported" := PBool false ]} : gmap string plist_value) in
  installed <- munki_installed h;;
  (if installed && update_munki_conditional_items
   then append_conditional_items h yosemite_supported_dict
   else ret tt);;;
  ret yosemite_supported.

End Yosemite.

(* ===================================================================== *)
(** ** check-10.13-highsierra-compatibility.py *)
(* ===================================================================== *)

Module HighSierra.

Definition verbose : bool := true.
Definition update_munki_conditional_items : bool := true.

Definition logger := Common.logger verbose.

Definition conditional_items_path (h : host) : M string :=
  let results := defaults_ManagedInstallDir h in
  let managed_installs_dir := Py.strip results in
  if Py.bool_of_str managed_installs_dir
  then ret (Py.path_join managed_installs_dir "ConditionalItems.plist")
  else ret "/Library/Managed Installs/ConditionalItems.plist".

Definition munki_installed := Common.munki_installed.

Definition gruntwork_munki_installed (h : host) : M bool :=
  if pkg_gruntwork_munki3 h then ret true else ret false.

Definition is_system_version_supported (h : host) : M bool :=
  let product_name := ProductName h in
  let product_version := ProductVersion h in
  v <- StrictVersion product_version;;
  upper <- StrictVersion "10.13";;
  too_new <- StrictVersion_ge v upper;;
  if too_new : bool
  then logger "System" (product_name +:+ " " +:+ product_version) "Failed";;;
       ret false
  else
    v' <- StrictVersion product_version;;
    lower <- StrictVersion "10.8";;
    new_enough <- StrictVersion_ge v' lower;;
    if new_enough : bool
    then logger "System" (product_name +:+ " " +:+ product_version) "OK";;;
         ret true
    else logger "System" (product_name +:+ " " +:+ product_version) "Failed";;;
         ret false.

Definition get_board_id := Common.get_board_id.

Definition is_virtual_machine := Common.is_virtual_machine verbose.

Definition get_current_model (h : host) : M string :=
  let results := sysctl_model h in
  ret (Py.strip results).

Definition non_supported_models : list string :=
  [ "iMac4,1"; "iMac4,2"; "iMac5,1"; "iMac5,2"; "iMac6,1"; "iMac7,1";
    "iMac8,1"; "iMac9,1"; "MacBook1,1"; "MacBook2,1"; "MacBook3,1";
    "MacBook4,1"; "MacBook5,1"; "MacBook5,2"; "MacBookAir1,1";
    "MacBookAir2,1"; "MacBookPro1,1"; "MacBookPro1,2"; "MacBookPro2,1";
    "MacBookPro2,2"; "MacBookPro3,1"; "MacBookPro4,1"; "MacBookPro5,1";
    "MacBookPro5,2"; "MacBookPro5,3"; "MacBookPro5,4"; "MacBookPro5,5";
    "Macmini1,1"; "Macmini2,1"; "Macmini3,1"; "MacPro1,1"; "MacPro2,1";
    "MacPro3,1"; "MacPro4,1"; "Xserve1,1"; "Xserve2,1"; "Xserve3,1" ].

Definition is_supported_model (h : host) : M bool :=
  current_model <- get_current_model h;;
  if Py.in_list (Some current_model) non_supported_models
  then logger "Model"
         (Common.quoted current_model +:+ " is not supported")
         "Failed";;;
       ret false
  else logger "Model" current_model "OK";;; ret true.

Definition platform_support_values : list string :=
  [ "Mac-00BE6ED71E35EB86"; "Mac-031AEE4D24BFF0B1"; "Mac-031B6874CF7F642A";
    "Mac-06F11F11946D27C5"; "Mac-06F11FD93F0323C5"; "Mac-189A3D4F975D5FFC";
    "Mac-27ADBB7B4CEE8E61"; "Mac-2BD1B31983FE1663"; "Mac-2E6FAB96566FE58C";
    "Mac-35C1E88140C3E6CF"; "Mac-35C5E08120C7EEAF"; "Mac-3CBD00234E554E41";
    "Mac-42FD25EABCABB274"; "Mac-473D31EABEB93F9B"; "Mac-4B682C642B45593E";
    "Mac-4B7AC7E43945597E"; "Mac-4BC72D62AD45599E"; "Mac-50619A408DB004DA";
    "Mac-551B86E5744E2388"; "Mac-65CE76090165799A"; "Mac-66E35819EE2D0D05";
    "Mac-66F35F19FE2A0D05"; "Mac-6F01561E16C75D06"; "Mac-742912EFDBEE19B3";
    "Mac-77EB7D7DAF985301"; "Mac-77F17D7DA9285301"; "Mac-7BA5B2794B2CDB12";
    "Mac-7BA5B2D9E42DDD94"; "Mac-7DF21CB3ED6977E5"; "Mac-7DF2A3B5E5D671ED";
    "Mac-81E3E92DD6088272"; "Mac-8ED6AF5B48C039E1"; "Mac-90BE64C3CB5A9AEB";
    "Mac-937CB26E2E02BB01"; "Mac-942452F5819B1C1B"; "Mac-942459F5819B171B";
    "Mac-94245A3940C91C80"; "Mac-94245B3640C91C81"; "Mac-942B59F58194171B";
    "Mac-942B5BF58194151B"; "Mac-942C5DF58193131B"; "Mac-9AE82516C7C6B903";
    "Mac-9F18E312C5C2BF0B"; "Mac-A369DDC4E67F1C45"; "Mac-A5C67F76ED83108C";
    "Mac-AFD8A9D944EA4843"; "Mac-B4831CEBD52A0C4C"; "Mac-B809C3757DA9BB8D";
    "Mac-BE088AF8C5EB4FA2"; "Mac-BE0E8AC46FE800CC"; "Mac-C08A6BB70A942AC2";
    "Mac-C3EC7CD22292981F"; "Mac-CAD6701F7CEA0921"; "Mac-CF21D135A7D34AA6";
    "Mac-DB15BD556843C820"; "Mac-E43C1C25D4880AD6"; "Mac-EE2EBD4B90B839A8";
    "Mac-F2208EC8"; "Mac-F221BEC8"; "Mac-F221DCC8"; "Mac-F222BEC8";
    "Mac-F2238AC8"; "Mac-F2238BAE"; "Mac-F22586C8"; "Mac-F22589C8";
    "Mac-F2268CC8"; "Mac-F2268DAE"; "Mac-F2268DC8"; "Mac-F22C89C8";
    "Mac-F22C8AC8"; "Mac-F305150B0C7DEEEF"; "Mac-F60DEB81FF30ACF6";
    "Mac-F65AE981FFA204ED"; "Mac-FA842E06C61E91C5"; "Mac-FC02E91DDD3FA6A4";
    "Mac-FFE5EF870D7BA81A" ].

Definition is_supported_board_id (h : host) : M bool :=
  board_id <- get_board_id h;;
  if Py.in_list board_id platform_support_values
  then logger "Board ID" (Py.str_of_opt board_id) "OK";;; ret true
  else logger "Board ID"
         (Common.quoted (Py.str_of_opt board_id) +:+ " is not supported")
         "Failed";;;
       ret false.

Definition append_conditional_items :=
  Common.append_conditional_items conditional_items_path.

Definition main (h : host) : M Z :=
  model_passed <- is_supported_model h;;
  board_id_passed <- is_supported_board_id h;;
  system_version_passed <- is_system_version_supported h;;
  vm <- is_virtual_machine h;;
  let '(high_sierra_supported, high_sierra_supported_dict) :=
    if vm : bool
    then (0, {[ "high_sierra_supported" := PBool true ]} : gmap string plist_value)
    else if model_passed && board_id_passed && system_version_passed
    then (0, {[ "high_sierra_supported" := PBool true ]} : gmap string plist_value)
    else (1, {[ "high_sierra_supported" := PBool false ]} : gmap string plist_value) in
  installed <- munki_installed h;;
  installed <- (if installed : bool then ret true else gruntwork_munki_installed h);;
  (if installed && update_munki_conditional_items
   then append_conditional_items h high_sierra_supported_dict
   else ret tt);;;
  ret high_sierra_supported.

End HighSierra.

(* ===================================================================== *)
(** ** Reasoning about runs *)
(* ===================================================================== *)

(** The value a call returns from world [w], if it returns. *)
Definition eval {A} (m : M A) (w : world) : option A :=
  match m w with
  | Return a _ => Some a
  | Raise _ _ => None
  end.

(** The world after some more lines were printed. *)
Definition emit (lines : list string) (w : world) : world :=
  {| stdout := stdout w ++ lines; fs := fs w; locked := locked w |}.

(** A call that only looks at the host and prints: from every world it ends
    the same way, after printing the same lines. *)
Inductive logs_only {A} (m : M A) : Prop :=
| logs_return (a : A) (lines : list string) :
    (forall w, m w = Return a (emit lines w)) -> logs_only m
| logs_raise (e : exn) (lines : list string) :
    (forall w, m w = Raise e (emit lines w)) -> logs_only m.

(** The dictionary kept in the property list at [path]; empty when there is
    no such file or it holds no dictionary. *)
Definition stored (w : world) (path : string) : gmap string plist_value :=
  match fs w !! path with
  | Some (PlistFile (PDict d)) => d
  | _ => ∅
  end.

(** The store at [path] can be merged into: the path can be written, and it
    is free or holds a property list whose root is a dictionary. *)
Definition store_usable (w : world) (path : string) : bool :=
  negb (bool_decide (path ∈ locked w)) &&
  match fs w !! path with
  | None => true
  | Some (PlistFile (PDict _)) => true
  | Some _ => false
  end.

(** A version without pre-release tag. *)
Definition plain_version (v : Z * Z * Z) : Py.strict_version :=
  {| Py.version := v; Py.prerelease := None |}.

(** The order the spec words: by integer value, component after component. *)
Definition lex_lt (a b : Z * Z * Z) : Prop :=
  let '(a1, a2, a3) := a in
  let '(b1, b2, b3) := b in
  a1 < b1 \/ (a1 = b1 /\ (a2 < b2 \/ (a2 = b2 /\ a3 < b3))).

(** The two scripts, by the release they test for. *)
Inductive release := Yosemite_10_10 | HighSierra_10_13.


Definition append_conditional_items_of (r : release) :=
  match r with
  | Yosemite_10_10 => Yosemite.append_conditional_items
  | HighSierra_10_13 => HighSierra.append_conditional_items
  end.

Definition conditional_items_path_of (r : release) :=
  match r with
  | Yosemite_10_10 => Yosemite.conditional_items_path
  | HighSierra_10_13 => HighSierra.conditional_items_path
  end.

(* ===================================================================== *)
(** ** Machines and worlds used as examples *)
(* ===================================================================== *)

Module Examples.

Definition line (s : string) : string := s +:+ String Py.nl EmptyString.

(** The line [ioreg] prints for a board id. *)
Definition ioreg_line (board_id : string) : string :=
  "    " +:+ String Py.dq ("board-id" +:+ String Py.dq (" = <" +:+
    String Py.dq (board_id +:+ String Py.dq (line ">")))).

Definition machine (ioreg features cpu64 memsize model version : string)
    (munki : bool) : host :=
  {| ioreg_board_id := ioreg;
     sysctl_cpu_features := features;
     sysctl_cpu64bit_capable := cpu64;
     sysctl_memsize := memsize;
     sysctl_model := model;
     ProductName := "Mac OS X";
     ProductVersion := version;
     pkg_munki_core := munki;
     pkg_gruntwork_munki3 := false;
     pref_ManagedInstallDir := None;
     defaults_ManagedInstallDir := EmptyString |}.

Definition plain_features : string := line "FPU VME DE PSE TSC MSR SSE SSE2".
Definition vmm_features : string := line "FPU VME DE PSE TSC MSR SSE SSE2 VMM".

(** An iMac4,1 with an allowed board id, 8 GiB and OS X 10.9.5. *)
Definition imac : host :=
  machine (ioreg_line "Mac-F2268DC8") plain_features (line "1")
    (line "8589934592") (line "iMac4,1") "10.9.5" true.

(** The same board in a model that High Sierra does not exclude. *)
Definition macbook : host :=
  machine (ioreg_line "Mac-F2268DC8") plain_features (line "1")
    (line "8589934592") (line "MacBookPro8,1") "10.12.6" true.

(** A virtual machine: no board id, no model, munki installed. *)
Definition guest : host :=
  machine EmptyString vmm_features (line "1") (line "4294967296")
    EmptyString "10.12.6" true.

(** A machine that answers nothing for board id and model. *)
Definition blank : host :=
  machine EmptyString plain_features (line "1") (line "4294967296")
    EmptyString "10.12.6" true.

(** A 32-bit machine: [sysctl -n hw.cpu64bit_capable] prints 0. *)
Definition core_duo : host :=
  machine (ioreg_line "Mac-F2268DC8") plain_features (line "0")
    (line "8589934592") (line "iMac4,1") "10.9.5" false.

Definition with_memsize (memsize : string) : host :=
  machine (ioreg_line "Mac-F2268DC8") plain_features (line "1")
    memsize (line "iMac4,1") "10.9.5" false.

Definition with_board_id (board_id : string) : host :=
  machine (ioreg_line board_id) plain_features (line "1")
    (line "8589934592") (line "iMac4,1") "10.9.5" false.

Definition with_version (version : string) : host :=
  machine (ioreg_line "Mac-F2268DC8") plain_features (line "1")
    (line "8589934592") (line "iMac4,1") version false.

(** The iMac without an answer for its model. *)
Definition no_model : host :=
  machine (ioreg_line "Mac-F2268DC8") plain_features (line "1")
    (line "8589934592") EmptyString "10.9.5" false.

(** The virtual machine with another product version. *)
Definition guest_with_version (version : string) : host :=
  machine EmptyString vmm_features (line "1") (line "4294967296")
    EmptyString version true.

Definition default_path : string :=
  "/Library/Managed Installs/ConditionalItems.plist".

(** Nothing printed, no file, every path writable. *)
Definition fresh : world := {| stdout := []; fs := ∅; locked := ∅ |}.

(** ConditionalItems.plist is there with two entries of other tools. *)
Definition with_store : world :=
  {| stdout := [];
     fs := {[ default_path :=
                PlistFile (PDict {[ "os_vers" := PString "10.9.5";
                                    "machine_type" := PString "desktop" ]}) ]};
     locked := ∅ |}.

(** ConditionalItems.plist cannot be opened for writing. *)
Definition read_only : world :=
  {| stdout := []; fs := ∅; locked := {[ default_path ]} |}.

(** ConditionalItems.plist is there, but its root is an array. *)
Definition with_array_store : world :=
  {| stdout := [];
     fs := {[ default_path := PlistFile (PArray [ PString "10.9.5" ]) ]};
     locked := ∅ |}.

End Examples.

(* ===================================================================== *)
(** ** Facts about logging-only calls *)
(* ===================================================================== *)

Lemma emit_nil w : emit [] w = w.
Proof. destruct w; unfold emit; simpl. by rewrite app_nil_r. Qed.

Lemma emit_emit l1 l2 w : emit l2 (emit l1 w) = emit (l1 ++ l2) w.
Proof. unfold emit; simpl. by rewrite app_assoc. Qed.

Lemma logs_only_ret {A} (a : A) : logs_only (ret a).
Proof. apply (logs_return _ a []). intros w. by rewrite emit_nil. Qed.

Lemma logs_only_raise {A} (e : exn) : logs_only (@raise A e).
Proof. apply (logs_raise _ e []). intros w. by rewrite emit_nil. Qed.

Lemma logs_only_print line : logs_only (print line).
Proof. by apply (logs_return _ tt [line]). Qed.

Lemma logs_only_bind {A B} (m : M A) (k : A -> M B) :
  logs_only m -> (forall a, logs_only (k a)) -> logs_only (bind m k).
Proof.
  intros [a l1 Hm | e l1 Hm] Hk.
  - destruct (Hk a) as [b l2 Hb | e l2 He].
    + apply (logs_return _ b (l1 ++ l2)). intros w.
      unfold bind. by rewrite Hm, Hb, emit_emit.
    + apply (logs_raise _ e (l1 ++ l2)). intros w.
      unfold bind. by rewrite Hm, He, emit_emit.
  - apply (logs_raise _ e l1). intros w. unfold bind. by rewrite Hm.
Qed.

Lemma logs_only_logger verbose message status info :
  logs_only (Common.logger verbose message status info).
Proof.
  unfold Common.logger. destruct verbose.
  - apply logs_only_print.
  - apply logs_only_ret.
Qed.

Lemma logs_only_StrictVersion s : logs_only (StrictVersion s).
Proof.
  unfold StrictVersion. destruct s; [ apply logs_only_ret | ].
  destruct (Py.parse_version _).
  - apply logs_only_ret.
  - apply logs_only_raise.
Qed.

Lemma logs_only_StrictVersion_ge self other :
  logs_only (StrictVersion_ge self other).
Proof.
  destruct self, other; simpl; (apply logs_only_ret || apply logs_only_raise).
Qed.

Lemma logs_only_int s : logs_only (int s).
Proof.
  unfold int. destruct (Py.int_of_str s).
  - apply logs_only_ret.
  - apply logs_only_raise.
Qed.

Create HintDb logs.
#[export] Hint Resolve logs_only_ret logs_only_raise logs_only_print
  logs_only_logger logs_only_StrictVersion logs_only_StrictVersion_ge
  logs_only_int : logs.

(** Splits a call built from binds, conditionals and the leaves above. *)
Ltac logs_step :=
  match goal with
  | |- logs_only (bind _ _) => apply logs_only_bind; [ | intros ? ]
  | |- logs_only (if ?c then _ else _) => destruct c
  | |- logs_only (match ?x with _ => _ end) => destruct x
  | |- logs_only _ => solve [ auto with logs ]
  end.

Ltac logs := repeat logs_step.

Lemma logs_only_is_virtual_machine verbose h :
  logs_only (Common.is_virtual_machine verbose h).
Proof.
  unfold Common.is_virtual_machine.
  induction (Py.split (sysctl_cpu_features h)) as [|feature rest IH]; simpl.
  - apply logs_only_ret.
  - destruct (String.eqb feature "VMM"); [ logs | exact IH ].
Qed.

Lemma logs_only_get_board_id h : logs_only (Common.get_board_id h).
Proof. unfold Common.get_board_id. logs. Qed.

Lemma logs_only_munki_installed h : logs_only (Common.munki_installed h).
Proof. unfold Common.munki_installed. logs. Qed.

#[export] Hint Resolve logs_only_is_virtual_machine logs_only_get_board_id
  logs_only_munki_installed : logs.

(** What a logging-only call returns from one world, it returns from all. *)
Lemma logs_only_returns {A} (m : M A) (w : world) (a : A) :
  logs_only m -> eval m w = Some a ->
  exists lines, forall w', m w' = Return a (emit lines w').
Proof.
  intros [a' lines H | e lines H]; unfold eval; rewrite H; intros E.
  - exists lines. congruence.
  - discriminate.
Qed.

(** Every check of either script is logging-only. *)
Lemma logs_only_yosemite_board_id h : logs_only (Yosemite.is_supported_board_id h).
Proof.
  unfold Yosemite.is_supported_board_id, Yosemite.is_virtual_machine,
    Yosemite.get_board_id, Yosemite.logger.
  logs.
Qed.

Lemma logs_only_yosemite_memory h :
  logs_only (Yosemite.has_required_amount_of_memory h).
Proof. unfold Yosemite.has_required_amount_of_memory, Yosemite.logger. logs. Qed.

Lemma logs_only_yosemite_cpu h : logs_only (Yosemite.is_64bit_capable h).
Proof. unfold Yosemite.is_64bit_capable, Yosemite.logger. logs. Qed.

Lemma logs_only_yosemite_version h :
  logs_only (Yosemite.is_system_version_supported h).
Proof. unfold Yosemite.is_system_version_supported, Yosemite.logger. logs. Qed.

Lemma logs_only_highsierra_model h : logs_only (HighSierra.is_supported_model h).
Proof.
  unfold HighSierra.is_supported_model, HighSierra.get_current_model,
    HighSierra.logger.
  logs.
Qed.

Lemma logs_only_highsierra_board_id h :
  logs_only (HighSierra.is_supported_board_id h).
Proof.
  unfold HighSierra.is_supported_board_id, HighSierra.get_board_id,
    HighSierra.logger.
  logs.
Qed.

Lemma logs_only_highsierra_version h :
  logs_only (HighSierra.is_system_version_supported h).
Proof. unfold HighSierra.is_system_version_supported, HighSierra.logger. logs. Qed.

Lemma logs_only_gruntwork h : logs_only (HighSierra.gruntwork_munki_installed h).
Proof. unfold HighSierra.gruntwork_munki_installed. logs. Qed.

(** Running a logging-only call first: the rest goes on with its value. *)
Lemma bind_returns {A B} (m : M A) (k : A -> M B) a lines w :
  (forall w', m w' = Return a (emit lines w')) ->
  bind m k w = k a (emit lines w).
Proof. intros H. unfold bind. by rewrite H. Qed.

Lemma munki_installed_run h w :
  Common.munki_installed h w = Return (pkg_munki_core h) w.
Proof. unfold Common.munki_installed. by destruct (pkg_munki_core h). Qed.

(* ===================================================================== *)
(** ** The Yosemite verdict *)
(* ===================================================================== *)

(** With the shipped configuration nothing follows the four checks but the
    exit code. *)
Lemma yosemite_main_run h w board memory cpu version lb lm lc lv :
  (forall w', Yosemite.is_supported_board_id h w' = Return board (emit lb w')) ->
  (forall w', Yosemite.has_required_amount_of_memory h w' = Return memory (emit lm w')) ->
  (forall w', Yosemite.is_64bit_capable h w' = Return cpu (emit lc w')) ->
  (forall w', Yosemite.is_system_version_supported h w' = Return version (emit lv w')) ->
  Yosemite.main h w =
    Return (if board && memory && cpu && version then 0 else 1)
           (emit (lb ++ lm ++ lc ++ lv) w).
Proof.
  intros Hb Hm Hc Hv. unfold Yosemite.main.
  rewrite (bind_returns _ _ _ _ _ Hb), (bind_returns _ _ _ _ _ Hm),
    (bind_returns _ _ _ _ _ Hc), (bind_returns _ _ _ _ _ Hv).
  rewrite !emit_emit, <- ?app_assoc.
  destruct (board && memory && cpu && version);
    unfold bind, Yosemite.munki_installed;
    rewrite munki_installed_run;
    unfold Yosemite.update_munki_conditional_items;
    rewrite andb_false_r; reflexivity.
Qed.

(** C1. The Yosemite run returns exit code 0 (supported) exactly when the
    board-id check, the memory check, the CPU check and the system version
    check each return True when run on their own; as soon as one of the four
    returns False, the others being what they are, it returns 1. *)
Theorem yosemite_supported_iff_all_four
    (h : host) (w : world) (board memory cpu version : bool) :
  eval (Yosemite.is_supported_board_id h) w = Some board ->
  eval (Yosemite.has_required_amount_of_memory h) w = Some memory ->
  eval (Yosemite.is_64bit_capable h) w = Some cpu ->
  eval (Yosemite.is_system_version_supported h) w = Some version ->
  exists code w',
    Yosemite.main h w = Return code w' /\
    (code = 0 <-> board = true /\ memory = true /\ cpu = true /\ version = true) /\
    (board = false \/ memory = false \/ cpu = false \/ version = false -> code = 1).
Proof.
  intros Eb Em Ec Ev.
  destruct (logs_only_returns _ _ _ (logs_only_yosemite_board_id h) Eb) as [lb Hb].
  destruct (logs_only_returns _ _ _ (logs_only_yosemite_memory h) Em) as [lm Hm].
  destruct (logs_only_returns _ _ _ (logs_only_yosemite_cpu h) Ec) as [lc Hc].
  destruct (logs_only_returns _ _ _ (logs_only_yosemite_version h) Ev) as [lv Hv].
  eexists _, _. split; [ apply (yosemite_main_run _ _ _ _ _ _ _ _ _ _ Hb Hm Hc Hv) | ].
  destruct board, memory, cpu, version; simpl; intuition congruence.
Qed.

Lemma yosemite_supported_iff_all_four_witness :
  exists code w',
    Yosemite.main Examples.imac Examples.fresh = Return code w' /\
    (code = 0 <-> true = true /\ true = true /\ true = true /\ true = true) /\
    (true = false \/ true = false \/ true = false \/ true = false -> code = 1).
Proof.
  apply (yosemite_supported_iff_all_four Examples.imac Examples.fresh
           true true true true); vm_compute; reflexivity.
Defined.

(* ===================================================================== *)
(** ** The conditional-items store *)
(* ===================================================================== *)

Lemma dict_map_to_list (m : gmap string plist_value) :
  list_to_map (rev (map_to_list m)) = m.
Proof.
  rewrite <- (list_to_map_to_list m) at 2. symmetry.
  apply list_to_map_proper.
  - apply NoDup_fst_map_to_list.
  - apply Permutation_rev.
Qed.

(** [dict(existing.items() + dictionary.items())]: the entries of
    [dictionary], and those of [existing] under the other keys. *)
Lemma dict_items_app (existing dictionary : gmap string plist_value) :
  dict (map_to_list existing ++ map_to_list dictionary) = dictionary ∪ existing.
Proof.
  unfold dict. by rewrite rev_app_distr, list_to_map_app, !dict_map_to_list.
Qed.

Lemma conditional_items_path_pure r h :
  exists p, forall w, conditional_items_path_of r h w = Return p w.
Proof.
  destruct r; simpl.
  - unfold Yosemite.conditional_items_path.
    destruct (pref_ManagedInstallDir h) as [[|c d]|]; eauto.
  - unfold HighSierra.conditional_items_path.
    destruct (Py.bool_of_str _); eauto.
Qed.

Lemma conditional_items_path_eval r h w p :
  eval (conditional_items_path_of r h) w = Some p ->
  forall w', conditional_items_path_of r h w' = Return p w'.
Proof.
  destruct (conditional_items_path_pure r h) as [p' Hp].
  unfold eval. rewrite Hp. intros [= <-]. exact Hp.
Qed.

(** A usable store after the call: the dictionary passed in, over what was
    stored. *)
Lemma writePlist_unlocked root p w :
  bool_decide (p ∈ locked w) = false ->
  writePlist root p w =
    Return tt {| stdout := stdout w; fs := <[p := PlistFile root]> (fs w);
                 locked := locked w |}.
Proof. intros Hl. unfold writePlist. by rewrite Hl. Qed.

Lemma append_conditional_items_run cip h p dictionary w :
  (forall w', cip h w' = Return p w') ->
  store_usable w p = true ->
  Common.append_conditional_items cip h dictionary w =
    Return tt {| stdout := stdout w;
                 fs := <[p := PlistFile (PDict (dictionary ∪ stored w p))]> (fs w);
                 locked := locked w |}.
Proof.
  intros Hp Hu. unfold store_usable in Hu.
  apply andb_true_iff in Hu as [Hl Hf]. apply negb_true_iff in Hl.
  unfold Common.append_conditional_items, bind.
  rewrite Hp. unfold path_exists, readPlist, stored.
  destruct (fs w !! p) as [[root|]|] eqn:E; try discriminate.
  - destruct root; try discriminate.
    rewrite bool_decide_eq_true_2, ?E by eauto.
    unfold items, ret. rewrite (writePlist_unlocked _ _ _ Hl), dict_items_app.
    reflexivity.
  - rewrite bool_decide_eq_false_2, ?E by (intros [? ?]; discriminate).
    unfold ret. rewrite (writePlist_unlocked _ _ _ Hl).
    by rewrite (right_id ∅ (∪)).
Qed.

(** A path that cannot be written: the call raises and no file changes. *)
Lemma writePlist_locked root p w :
  p ∈ locked w -> writePlist root p w = Raise (IOError p) w.
Proof. intros Hl. unfold writePlist. by rewrite bool_decide_eq_true_2. Qed.

Lemma append_conditional_items_locked cip h p dictionary w :
  (forall w', cip h w' = Return p w') ->
  p ∈ locked w ->
  exists e, Common.append_conditional_items cip h dictionary w = Raise e w.
Proof.
  intros Hp Hl.
  unfold Common.append_conditional_items, bind.
  rewrite Hp. unfold path_exists, readPlist.
  destruct (fs w !! p) as [[root|]|] eqn:E.
  - rewrite bool_decide_eq_true_2, ?E by eauto.
    destruct root; unfold items, raise, ret; eauto.
    rewrite writePlist_locked by done. eauto.
  - rewrite bool_decide_eq_true_2, ?E by eauto. eauto.
  - rewrite bool_decide_eq_false_2, ?E by (intros [? ?]; discriminate).
    unfold ret. rewrite writePlist_locked by done. eauto.
Qed.


Lemma stored_after_write w p d out :
  stored {| stdout := out; fs := <[p := PlistFile (PDict d)]> (fs w);
            locked := locked w |} p = d.
Proof. unfold stored. simpl. by rewrite lookup_insert_eq. Qed.





(* ===================================================================== *)
(** ** The High Sierra verdict and its persistence *)
(* ===================================================================== *)

#[export] Hint Resolve logs_only_yosemite_board_id logs_only_yosemite_memory
  logs_only_yosemite_cpu logs_only_yosemite_version
  logs_only_highsierra_model logs_only_highsierra_board_id
  logs_only_highsierra_version logs_only_gruntwork : logs.

(** The four calls at the head of High Sierra's [main], then what is left:
    the merge, if munki or gruntwork munki is installed, and the exit code. *)
Lemma highsierra_main_run h w model board version vm lm lb lv lvm :
  (forall w', HighSierra.is_supported_model h w' = Return model (emit lm w')) ->
  (forall w', HighSierra.is_supported_board_id h w' = Return board (emit lb w')) ->
  (forall w', HighSierra.is_system_version_supported h w' = Return version (emit lv w')) ->
  (forall w', HighSierra.is_virtual_machine h w' = Return vm (emit lvm w')) ->
  let supported := vm || (model && board && version) in
  HighSierra.main h w =
    ((if pkg_munki_core h || pkg_gruntwork_munki3 h
      then HighSierra.append_conditional_items h
             {[ "high_sierra_supported" := PBool supported ]}
      else ret tt);;;
     ret (if supported then 0 else 1)) (emit (lm ++ lb ++ lv ++ lvm) w).
Proof.
  intros Hm Hb Hv Hvm supported. unfold HighSierra.main.
  rewrite (bind_returns _ _ _ _ _ Hm), (bind_returns _ _ _ _ _ Hb),
    (bind_returns _ _ _ _ _ Hv), (bind_returns _ _ _ _ _ Hvm).
  rewrite !emit_emit, <- ?app_assoc.
  assert (Hi : forall B (k : bool -> M B) w0,
             bind (HighSierra.munki_installed h)
               (fun installed =>
                  bind (if installed : bool then ret true
                        else HighSierra.gruntwork_munki_installed h) k) w0
             = k (pkg_munki_core h || pkg_gruntwork_munki3 h) w0).
  { intros B k w0. unfold bind, HighSierra.munki_installed.
    rewrite munki_installed_run. unfold HighSierra.gruntwork_munki_installed.
    destruct (pkg_munki_core h), (pkg_gruntwork_munki3 h); reflexivity. }
  subst supported.
  destruct vm; [ | destruct (model && board && version) ]; simpl orb;
    cbv beta iota; rewrite Hi;
    unfold HighSierra.update_munki_conditional_items; rewrite andb_true_r;
    reflexivity.
Qed.

Lemma highsierra_checks_return h w vm model board version :
  eval (HighSierra.is_virtual_machine h) w = Some vm ->
  eval (HighSierra.is_supported_model h) w = Some model ->
  eval (HighSierra.is_supported_board_id h) w = Some board ->
  eval (HighSierra.is_system_version_supported h) w = Some version ->
  exists lines,
    HighSierra.main h w =
      ((if pkg_munki_core h || pkg_gruntwork_munki3 h
        then HighSierra.append_conditional_items h
               {[ "high_sierra_supported" := PBool (vm || (model && board && version)) ]}
        else ret tt);;;
       ret (if vm || (model && board && version) then 0 else 1)) (emit lines w).
Proof.
  intros Evm Em Eb Ev.
  destruct (logs_only_returns _ _ _ (logs_only_is_virtual_machine _ h) Evm) as [lvm Hvm].
  destruct (logs_only_returns _ _ _ (logs_only_highsierra_model h) Em) as [lm Hm].
  destruct (logs_only_returns _ _ _ (logs_only_highsierra_board_id h) Eb) as [lb Hb].
  destruct (logs_only_returns _ _ _ (logs_only_highsierra_version h) Ev) as [lv Hv].
  eexists. apply (highsierra_main_run _ _ _ _ _ _ _ _ _ _ Hm Hb Hv Hvm).
Qed.

(** C2. The High Sierra run returns exit code 0 (supported) exactly when
    the machine is a virtual machine, or the model check, the board-id check
    and the system version check all return True; on a virtual machine it
    returns 0 whatever the three checks return.  The three checks are taken
    to return (the version string is well formed) and the store, if munki
    is installed, to be usable. *)
Theorem highsierra_supported_iff_vm_or_all_three
    (h : host) (w : world) (vm model board version : bool) (p : string) :
  eval (HighSierra.is_virtual_machine h) w = Some vm ->
  eval (HighSierra.is_supported_model h) w = Some model ->
  eval (HighSierra.is_supported_board_id h) w = Some board ->
  eval (HighSierra.is_system_version_supported h) w = Some version ->
  eval (HighSierra.conditional_items_path h) w = Some p ->
  (pkg_munki_core h || pkg_gruntwork_munki3 h = true -> store_usable w p = true) ->
  exists code w',
    HighSierra.main h w = Return code w' /\
    (code = 0 <-> vm = true \/ (model = true /\ board = true /\ version = true)) /\
    (code = 0 \/ code = 1) /\
    (vm = true -> code = 0).
Proof.
  intros Evm Em Eb Ev Ep Hu.
  destruct (highsierra_checks_return _ _ _ _ _ _ Evm Em Eb Ev) as [lines ->].
  pose proof (conditional_items_path_eval HighSierra_10_13 _ _ _ Ep) as Hp.
  exists (if vm || (model && board && version) then 0 else 1).
  unfold bind.
  destruct (pkg_munki_core h || pkg_gruntwork_munki3 h).
  - unfold HighSierra.append_conditional_items.
    rewrite (append_conditional_items_run _ _ p) by (auto; apply Hp).
    eexists. split; [ reflexivity | ].
    destruct vm, model, board, version; simpl; intuition congruence.
  - eexists. split; [ reflexivity | ].
    destruct vm, model, board, version; simpl; intuition congruence.
Qed.

Lemma highsierra_supported_iff_vm_or_all_three_witness :
  exists code w',
    HighSierra.main Examples.guest Examples.with_store = Return code w' /\
    (code = 0 <-> true = true \/ (true = true /\ false = true /\ true = true)) /\
    (code = 0 \/ code = 1) /\
    (true = true -> code = 0).
Proof.
  apply (highsierra_supported_iff_vm_or_all_three Examples.guest
           Examples.with_store true true false true Examples.default_path);
    vm_compute; reflexivity.
Defined.

(* ===================================================================== *)
(** ** The shipped configurations *)
(* ===================================================================== *)

(** With [update_munki_conditional_items = False] the whole of Yosemite's
    [main] only looks at the host and prints. *)
Lemma logs_only_yosemite_main h : logs_only (Yosemite.main h).
Proof.
  unfold Yosemite.main.
  do 4 (apply logs_only_bind; [ auto with logs | intros ? ]).
  destruct (a && a0 && a1 && a2); cbv beta iota;
    (apply logs_only_bind; [ unfold Yosemite.munki_installed; auto with logs | ]);
    intros installed; unfold Yosemite.update_munki_conditional_items;
    rewrite andb_false_r; logs.
Qed.

Lemma logs_only_keeps_files {A} (m : M A) w :
  logs_only m ->
  fs (world_of (m w)) = fs w /\ locked (world_of (m w)) = locked w.
Proof. intros [a lines H | e lines H]; rewrite H; by split. Qed.

(** C10. As shipped, Yosemite's flag [update_munki_conditional_items] is
    False and its [main] leaves every file as it found it, for every host
    and whether it returns or raises.  High Sierra's flag is True: when
    munki or gruntwork munki is installed its [main] merges the verdict
    under [high_sierra_supported] into the store (and raises if the store
    cannot be written); when neither is installed it leaves the files as
    they were. *)
Theorem shipped_update_munki_conditional_items
    (h : host) (w : world) (vm model board version : bool) (p : string) :
  eval (HighSierra.is_virtual_machine h) w = Some vm ->
  eval (HighSierra.is_supported_model h) w = Some model ->
  eval (HighSierra.is_supported_board_id h) w = Some board ->
  eval (HighSierra.is_system_version_supported h) w = Some version ->
  eval (HighSierra.conditional_items_path h) w = Some p ->
  Yosemite.update_munki_conditional_items = false /\
  (forall hy wy, fs (world_of (Yosemite.main hy wy)) = fs wy) /\
  HighSierra.update_munki_conditional_items = true /\
  (pkg_munki_core h || pkg_gruntwork_munki3 h = true ->
   store_usable w p = true ->
   exists code w',
     HighSierra.main h w = Return code w' /\
     stored w' p =
       <[ "high_sierra_supported" := PBool (vm || (model && board && version)) ]>
         (stored w p)) /\
  (pkg_munki_core h || pkg_gruntwork_munki3 h = true ->
   p ∈ locked w ->
   exists e w', HighSierra.main h w = Raise e w' /\ fs w' = fs w) /\
  (pkg_munki_core h || pkg_gruntwork_munki3 h = false ->
   exists code w', HighSierra.main h w = Return code w' /\ fs w' = fs w).
Proof.
  intros Evm Em Eb Ev Ep.
  split; [ reflexivity | ].
  split; [ intros hy wy; apply logs_only_keeps_files, logs_only_yosemite_main | ].
  split; [ reflexivity | ].
  destruct (highsierra_checks_return _ _ _ _ _ _ Evm Em Eb Ev) as [lines ->].
  pose proof (conditional_items_path_eval HighSierra_10_13 _ _ _ Ep) as Hp.
  unfold bind. repeat split.
  - intros -> Hu. unfold HighSierra.append_conditional_items.
    rewrite (append_conditional_items_run _ _ p) by (auto; apply Hp).
    eexists _, _. split; [ reflexivity | ].
    by rewrite stored_after_write, <- insert_union_singleton_l.
  - intros -> Hl. unfold HighSierra.append_conditional_items.
    destruct (append_conditional_items_locked HighSierra.conditional_items_path
                h p {[ "high_sierra_supported" := PBool (vm || (model && board && version)) ]}
                (emit lines w) Hp Hl) as [e ->].
    by eexists _, _.
  - intros ->. by eexists _, _.
Qed.

Lemma shipped_update_munki_conditional_items_witness :
  Yosemite.update_munki_conditional_items = false /\
  (forall hy wy, fs (world_of (Yosemite.main hy wy)) = fs wy) /\
  HighSierra.update_munki_conditional_items = true /\
  (pkg_munki_core Examples.macbook || pkg_gruntwork_munki3 Examples.macbook = true ->
   store_usable Examples.with_store Examples.default_path = true ->
   exists code w',
     HighSierra.main Examples.macbook Examples.with_store = Return code w' /\
     stored w' Examples.default_path =
       <[ "high_sierra_supported" := PBool (false || (true && true && true)) ]>
         (stored Examples.with_store Examples.default_path)) /\
  (pkg_munki_core Examples.macbook || pkg_gruntwork_munki3 Examples.macbook = true ->
   Examples.default_path ∈ locked Examples.with_store ->
   exists e w',
     HighSierra.main Examples.macbook Examples.with_store = Raise e w' /\
     fs w' = fs Examples.with_store) /\
  (pkg_munki_core Examples.macbook || pkg_gruntwork_munki3 Examples.macbook = false ->
   exists code w',
     HighSierra.main Examples.macbook Examples.with_store = Return code w' /\
     fs w' = fs Examples.with_store).
Proof.
  apply (shipped_update_munki_conditional_items Examples.macbook
           Examples.with_store false true true true Examples.default_path);
    vm_compute; reflexivity.
Defined.

(** C8, as the scripts have it.  No call is guarded by [try]: when munki or
    gruntwork munki is installed and ConditionalItems.plist cannot be
    written, High Sierra's [main] raises after the checks have printed
    their lines, no file changes, and the run ends with status 1 whatever
    the verdict was.  Yosemite's [main], which as shipped never writes,
    returns 0 or 1 by its verdict whatever the state of the files. *)
Theorem write_failure_is_not_caught
    (h : host) (w : world) (vm model board version : bool) (p : string) :
  eval (HighSierra.is_virtual_machine h) w = Some vm ->
  eval (HighSierra.is_supported_model h) w = Some model ->
  eval (HighSierra.is_supported_board_id h) w = Some board ->
  eval (HighSierra.is_system_version_supported h) w = Some version ->
  eval (HighSierra.conditional_items_path h) w = Some p ->
  pkg_munki_core h || pkg_gruntwork_munki3 h = true ->
  p ∈ locked w ->
  (exists e lines, HighSierra.main h w = Raise e (emit lines w)) /\
  exit_status (HighSierra.main h w) = 1 /\
  (forall hy wy b m c v,
     eval (Yosemite.is_supported_board_id hy) wy = Some b ->
     eval (Yosemite.has_required_amount_of_memory hy) wy = Some m ->
     eval (Yosemite.is_64bit_capable hy) wy = Some c ->
     eval (Yosemite.is_system_version_supported hy) wy = Some v ->
     exit_status (Yosemite.main hy wy) = if b && m && c && v then 0 else 1).
Proof.
  intros Evm Em Eb Ev Ep Hi Hl.
  destruct (highsierra_checks_return _ _ _ _ _ _ Evm Em Eb Ev) as [lines ->].
  pose proof (conditional_items_path_eval HighSierra_10_13 _ _ _ Ep) as Hp.
  unfold bind. rewrite Hi. unfold HighSierra.append_conditional_items.
  destruct (append_conditional_items_locked HighSierra.conditional_items_path
              h p {[ "high_sierra_supported" := PBool (vm || (model && board && version)) ]}
              (emit lines w) Hp Hl) as [e ->].
  split; [ by eexists _, _ | ]. split; [ reflexivity | ].
  intros hy wy b m c v Eyb Eym Eyc Eyv.
  destruct (logs_only_returns _ _ _ (logs_only_yosemite_board_id hy) Eyb) as [lb Hb].
  destruct (logs_only_returns _ _ _ (logs_only_yosemite_memory hy) Eym) as [lm Hm].
  destruct (logs_only_returns _ _ _ (logs_only_yosemite_cpu hy) Eyc) as [lc Hc].
  destruct (logs_only_returns _ _ _ (logs_only_yosemite_version hy) Eyv) as [lv Hv].
  by rewrite (yosemite_main_run _ _ _ _ _ _ _ _ _ _ Hb Hm Hc Hv).
Qed.

Lemma write_failure_is_not_caught_witness :
  (exists e lines,
     HighSierra.main Examples.guest Examples.read_only
     = Raise e (emit lines Examples.read_only)) /\
  exit_status (HighSierra.main Examples.guest Examples.read_only) = 1 /\
  (forall hy wy b m c v,
     eval (Yosemite.is_supported_board_id hy) wy = Some b ->
     eval (Yosemite.has_required_amount_of_memory hy) wy = Some m ->
     eval (Yosemite.is_64bit_capable hy) wy = Some c ->
     eval (Yosemite.is_system_version_supported hy) wy = Some v ->
     exit_status (Yosemite.main hy wy) = if b && m && c && v then 0 else 1).
Proof.
  apply (write_failure_is_not_caught Examples.guest Examples.read_only
           true true false true Examples.default_path);
    vm_compute; reflexivity.
Defined.

(** C8, as claimed, fails: a virtual machine with munki installed is
    supported by High Sierra's rules, yet with ConditionalItems.plist
    unwritable the run does not end with status 0. *)
Lemma write_failure_changes_exit_code :
  eval (HighSierra.is_virtual_machine Examples.guest) Examples.read_only = Some true /\
  pkg_munki_core Examples.guest = true /\
  Examples.default_path ∈ locked Examples.read_only /\
  HighSierra.main Examples.guest Examples.read_only
    = Raise (IOError Examples.default_path)
        (emit [ "      Board ID: Virtual machine                          [OK]" ]
           (world_of (HighSierra.is_system_version_supported Examples.guest
             (world_of (HighSierra.is_supported_board_id Examples.guest
               (world_of (HighSierra.is_supported_model Examples.guest
                  Examples.read_only))))))) /\
  exit_status (HighSierra.main Examples.guest Examples.read_only) <> 0.
Proof.
  split; [ vm_compute; reflexivity | ].
  split; [ reflexivity | ].
  split; [ unfold Examples.read_only; simpl; set_solver | ].
  split; [ vm_compute; reflexivity | ].
  vm_compute. discriminate.
Qed.

(* ===================================================================== *)
(** ** Reading back a printed integer *)
(* ===================================================================== *)

Ltac eval_digit :=
  match goal with
  | |- context [Py.digit_value ?c] =>
      let v := eval vm_compute in (Py.digit_value c) in
      change (Py.digit_value c) with v
  end.

Lemma atoi_from_of_uint_acc d acc :
  Py.atoi_from (Z.pos acc) (NilEmpty.string_of_uint d)
  = Z.pos (Pos.of_uint_acc d acc).
Proof.
  revert acc. induction d; intros acc; simpl; try reflexivity;
    rewrite <- IHd; f_equal; eval_digit; lia.
Qed.

Lemma atoi_of_uint d :
  Py.atoi (NilEmpty.string_of_uint d) = Z.of_N (Pos.of_uint d).
Proof.
  unfold Py.atoi. induction d; simpl; try reflexivity; try exact IHd;
    eval_digit; exact (atoi_from_of_uint_acc d _).
Qed.

Lemma span_digits_of_uint d :
  Py.span_digits (NilEmpty.string_of_uint d)
  = (NilEmpty.string_of_uint d, EmptyString).
Proof. induction d; simpl; try reflexivity; by rewrite IHd. Qed.

Lemma rstrip_of_uint_line d :
  Py.rstrip (NilEmpty.string_of_uint d +:+ String Py.nl EmptyString)
  = NilEmpty.string_of_uint d.
Proof. induction d; simpl; try reflexivity; by rewrite IHd. Qed.

Lemma int_of_digits d :
  d <> Decimal.Nil ->
  Py.int_of_str (NilEmpty.string_of_uint d +:+ String Py.nl EmptyString)
  = Some (Z.of_N (Pos.of_uint d)).
Proof.
  intros Hd. unfold Py.int_of_str, Py.strip.
  rewrite rstrip_of_uint_line.
  pose proof (span_digits_of_uint d) as Hs.
  pose proof (atoi_of_uint d) as Ha.
  destruct d; try done; simpl NilEmpty.string_of_uint in *;
    cbn [Py.lstrip]; cbv beta iota;
    change (Py.is_space _) with false; cbv beta iota;
    rewrite Hs, Ha; reflexivity.
Qed.

Lemma int_of_negated_digits d :
  d <> Decimal.Nil ->
  Py.int_of_str (String "-" (NilEmpty.string_of_uint d) +:+ String Py.nl EmptyString)
  = Some (- Z.of_N (Pos.of_uint d)).
Proof.
  intros Hd. unfold Py.int_of_str, Py.strip.
  change (String "-" (NilEmpty.string_of_uint d) +:+ String Py.nl EmptyString)
    with (String "-" (NilEmpty.string_of_uint d +:+ String Py.nl EmptyString)).
  cbn [Py.rstrip]. rewrite rstrip_of_uint_line.
  change (Py.is_space "-") with false. cbv beta iota. cbn [andb Py.lstrip].
  change (Py.is_space "-") with false. cbv beta iota.
  pose proof (span_digits_of_uint d) as Hs.
  pose proof (atoi_of_uint d) as Ha.
  destruct d; try done; simpl NilEmpty.string_of_uint in *;
    rewrite Hs, Ha; reflexivity.
Qed.

(** A decimal number followed by a newline, as [sysctl -n] prints it, is
    read back by [int]. *)
Lemma int_of_str_of_int (n : Z) :
  Py.int_of_str (Py.str_of_int n +:+ String Py.nl EmptyString) = Some n.
Proof.
  unfold Py.str_of_int. destruct n as [|p|p].
  - reflexivity.
  - change (Z.to_int (Z.pos p)) with (Decimal.Pos (Pos.to_uint p)).
    pose proof (Unsigned.to_uint_nonnil p) as Hn.
    replace (NilZero.string_of_int (Decimal.Pos (Pos.to_uint p)))
      with (NilEmpty.string_of_uint (Pos.to_uint p))
      by (simpl; destruct (Pos.to_uint p); done).
    by rewrite (int_of_digits _ Hn), Unsigned.of_to.
  - change (Z.to_int (Z.neg p)) with (Decimal.Neg (Pos.to_uint p)).
    pose proof (Unsigned.to_uint_nonnil p) as Hn.
    replace (NilZero.string_of_int (Decimal.Neg (Pos.to_uint p)))
      with (String "-" (NilEmpty.string_of_uint (Pos.to_uint p)))
      by (simpl; destruct (Pos.to_uint p); done).
    by rewrite (int_of_negated_digits _ Hn), Unsigned.of_to.
Qed.

(* ===================================================================== *)
(** ** The single checks *)
(* ===================================================================== *)

Lemma is_64bit_capable_run h w :
  Yosemite.is_64bit_capable h w =
    if Py.bool_of_str (sysctl_cpu64bit_capable h)
    then Return true (emit [ Common.format_line "CPU" "64 bit capable" "OK" ] w)
    else Return false (emit [ Common.format_line "CPU" "not 64 bit capable" "Failed" ] w).
Proof.
  unfold Yosemite.is_64bit_capable.
  destruct (Py.bool_of_str (sysctl_cpu64bit_capable h)); reflexivity.
Qed.

(** C3, where the script departs from it.  [is_64bit_capable] tests
    [bool(results)] on the text [sysctl] printed, and a text that is not
    empty is true: on a machine whose flag is 0 the check passes and reports
    [64 bit capable]. *)
Theorem is_64bit_capable_passes_on_flag_0 :
  sysctl_cpu64bit_capable Examples.core_duo = Examples.line "0" /\
  Yosemite.is_64bit_capable Examples.core_duo Examples.fresh =
    Return true
      (emit [ "           CPU: 64 bit capable                           [OK]" ]
         Examples.fresh) /\
  (forall h w,
     eval (Yosemite.is_64bit_capable h) w
     = Some (Py.bool_of_str (sysctl_cpu64bit_capable h))).
Proof.
  split; [ reflexivity | ]. split; [ reflexivity | ].
  intros h w. unfold eval. rewrite is_64bit_capable_run.
  by destruct (Py.bool_of_str _).
Qed.

Lemma has_required_amount_of_memory_run h w n :
  Py.int_of_str (sysctl_memsize h) = Some n ->
  Yosemite.has_required_amount_of_memory h w =
    if 2 * 1024 ^ 3 <=? n
    then Return true
           (emit [ Common.format_line "Memory"
                     (Py.str_of_int (n / 1024 / 1024 / 1024)
                      +:+ " GB physical memory installed") "OK" ] w)
    else Return false
           (emit [ Common.format_line "Memory"
                     (Py.str_of_int (n / 1024 / 1024 / 1024)
                      +:+ " GB installed, 2 GB required") "Failed" ] w).
Proof.
  intros E. unfold Yosemite.has_required_amount_of_memory, int, bind.
  rewrite E. unfold ret.
  change (2048 * 1024 * 1024) with (2 * 1024 ^ 3).
  destruct (2 * 1024 ^ 3 <=? n); reflexivity.
Qed.

(** C5. When [int] reads the integer [n] from what [sysctl -n hw.memsize]
    printed, the memory check returns True exactly when [n >= 2 * 1024^3];
    a machine reporting 2147483648 bytes passes and one reporting
    2147483647 bytes fails; and for every integer [m], a machine that
    prints [m] in decimal passes exactly when [m >= 2 * 1024^3]. *)
Theorem memory_check_threshold (h : host) (w : world) (n : Z) :
  Py.int_of_str (sysctl_memsize h) = Some n ->
  (exists w', Yosemite.has_required_amount_of_memory h w
              = Return (2 * 1024 ^ 3 <=? n) w') /\
  (eval (Yosemite.has_required_amount_of_memory h) w = Some true
   <-> 2 * 1024 ^ 3 <= n) /\
  eval (Yosemite.has_required_amount_of_memory
          (Examples.with_memsize (Examples.line "2147483648"))) w = Some true /\
  eval (Yosemite.has_required_amount_of_memory
          (Examples.with_memsize (Examples.line "2147483647"))) w = Some false /\
  (forall m,
     eval (Yosemite.has_required_amount_of_memory
             (Examples.with_memsize (Examples.line (Py.str_of_int m)))) w
     = Some (2 * 1024 ^ 3 <=? m)).
Proof.
  intros E. unfold eval.
  rewrite (has_required_amount_of_memory_run h w n E).
  rewrite (has_required_amount_of_memory_run _ w 2147483648) by reflexivity.
  rewrite (has_required_amount_of_memory_run _ w 2147483647) by reflexivity.
  split; [ | split; [ | split; [ | split ] ] ].
  - destruct (2 * 1024 ^ 3 <=? n); eauto.
  - split.
    + destruct (Z.leb_spec (2 * 1024 ^ 3) n); [ done | discriminate ].
    + intros Hn. apply Z.leb_le in Hn. by rewrite Hn.
  - reflexivity.
  - reflexivity.
  - intros m.
    rewrite (has_required_amount_of_memory_run _ w m)
      by apply int_of_str_of_int.
    by destruct (2 * 1024 ^ 3 <=? m).
Qed.

Lemma memory_check_threshold_witness :
  (exists w', Yosemite.has_required_amount_of_memory Examples.imac Examples.fresh
              = Return (2 * 1024 ^ 3 <=? 8589934592) w') /\
  (eval (Yosemite.has_required_amount_of_memory Examples.imac) Examples.fresh
   = Some true <-> 2 * 1024 ^ 3 <= 8589934592) /\
  eval (Yosemite.has_required_amount_of_memory
          (Examples.with_memsize (Examples.line "2147483648"))) Examples.fresh
  = Some true /\
  eval (Yosemite.has_required_amount_of_memory
          (Examples.with_memsize (Examples.line "2147483647"))) Examples.fresh
  = Some false /\
  (forall m,
     eval (Yosemite.has_required_amount_of_memory
             (Examples.with_memsize (Examples.line (Py.str_of_int m)))) Examples.fresh
     = Some (2 * 1024 ^ 3 <=? m)).
Proof.
  apply (memory_check_threshold Examples.imac Examples.fresh 8589934592).
  vm_compute. reflexivity.
Defined.

(* ===================================================================== *)
(** ** Version comparison *)
(* ===================================================================== *)

Lemma cmp_int_cases a b :
  (a < b /\ Py.cmp_int a b = -1) \/ (a = b /\ Py.cmp_int a b = 0) \/
  (b < a /\ Py.cmp_int a b = 1).
Proof.
  unfold Py.cmp_int. destruct (Z.compare_spec a b); lia.
Qed.

Lemma version_cmp_plain a b :
  (Py.version_cmp (plain_version a) (plain_version b) < 0 <-> lex_lt a b) /\
  (Py.version_cmp (plain_version a) (plain_version b) = 0 <-> a = b) /\
  (0 < Py.version_cmp (plain_version a) (plain_version b) <-> lex_lt b a).
Proof.
  destruct a as [[a1 a2] a3], b as [[b1 b2] b3].
  unfold Py.version_cmp, plain_version, Py.cmp_tuple, lex_lt; simpl.
  destruct (Z.eqb_spec a1 b1) as [-> | N1]; simpl.
  - destruct (Z.eqb_spec a2 b2) as [-> | N2]; simpl.
    + destruct (cmp_int_cases a3 b3) as [[? ->] | [[? ->] | [? ->]]]; simpl;
        repeat split; intros; simplify_eq; try lia; try congruence.
    + destruct (cmp_int_cases a2 b2) as [[? ->] | [[? ->] | [? ->]]]; simpl;
        repeat split; intros; simplify_eq; try lia; try congruence.
  - destruct (cmp_int_cases a1 b1) as [[? ->] | [[? ->] | [? ->]]]; simpl;
      repeat split; intros; simplify_eq; try lia; try congruence.
Qed.

Lemma StrictVersion_run s v w :
  Py.parse_version s = Some v -> StrictVersion s w = Return (Parsed v) w.
Proof.
  intros E. unfold StrictVersion. destruct s; [ discriminate | ]. by rewrite E.
Qed.

(** The version check of either script, by its two bounds. *)
Lemma yosemite_version_run h w v :
  Py.parse_version (ProductVersion h) = Some v ->
  eval (Yosemite.is_system_version_supported h) w =
    Some (negb (Py.version_ge v (plain_version (10, 10, 0)))
          && Py.version_ge v (plain_version (10, 6, 6))).
Proof.
  intros E. unfold eval, Yosemite.is_system_version_supported, bind.
  rewrite !(StrictVersion_run _ v) by done.
  rewrite (StrictVersion_run "10.10" (plain_version (10, 10, 0))) by reflexivity.
  unfold StrictVersion_ge at 1, ret at 1.
  destruct (Py.version_ge v (plain_version (10, 10, 0))); [ reflexivity | ].
  rewrite !(StrictVersion_run _ v) by done.
  rewrite (StrictVersion_run "10.6.6" (plain_version (10, 6, 6))) by reflexivity.
  unfold StrictVersion_ge at 1, ret at 1.
  destruct (Py.version_ge v (plain_version (10, 6, 6))); reflexivity.
Qed.

Lemma highsierra_version_run h w v :
  Py.parse_version (ProductVersion h) = Some v ->
  eval (HighSierra.is_system_version_supported h) w =
    Some (negb (Py.version_ge v (plain_version (10, 13, 0)))
          && Py.version_ge v (plain_version (10, 8, 0))).
Proof.
  intros E. unfold eval, HighSierra.is_system_version_supported, bind.
  rewrite !(StrictVersion_run _ v) by done.
  rewrite (StrictVersion_run "10.13" (plain_version (10, 13, 0))) by reflexivity.
  unfold StrictVersion_ge at 1, ret at 1.
  destruct (Py.version_ge v (plain_version (10, 13, 0))); [ reflexivity | ].
  rewrite !(StrictVersion_run _ v) by done.
  rewrite (StrictVersion_run "10.8" (plain_version (10, 8, 0))) by reflexivity.
  unfold StrictVersion_ge at 1, ret at 1.
  destruct (Py.version_ge v (plain_version (10, 8, 0))); reflexivity.
Qed.

Lemma version_check_raises_on_malformed h w :
  Py.parse_version (ProductVersion h) = None ->
  eval (Yosemite.is_system_version_supported h) w = None /\
  eval (HighSierra.is_system_version_supported h) w = None.
Proof.
  intros E.
  unfold eval, Yosemite.is_system_version_supported,
    HighSierra.is_system_version_supported, bind, StrictVersion.
  destruct (ProductVersion h); [ done | ]. by rewrite E.
Qed.

Lemma version_in_range v lo hi :
  negb (Py.version_ge v hi) && Py.version_ge v lo = true <->
  0 <= Py.version_cmp v lo /\ Py.version_cmp v hi < 0.
Proof.
  unfold Py.version_ge.
  rewrite andb_true_iff, negb_true_iff, Z.leb_le, Z.leb_gt. tauto.
Qed.

(** C4. Versions are compared component by component, by integer value:
    10.6.6 is below 10.6.10, 10.10 is above 10.6.6, and 10.8 equals 10.8.0;
    on versions without pre-release tag the comparison is the lexicographic
    order of the three integers.  The Yosemite version check returns True
    exactly when the product version [v] is well formed and
    [10.6.6 <= v < 10.10] in that order (High Sierra's: [10.8 <= v < 10.13]). *)
Theorem version_comparison_is_componentwise :
  Py.compare "10.6.6" "10.6.10" = Some (-1) /\
  Py.compare "10.10" "10.6.6" = Some 1 /\
  Py.compare "10.8" "10.8.0" = Some 0 /\
  (forall a b,
     (Py.version_cmp (plain_version a) (plain_version b) < 0 <-> lex_lt a b) /\
     (Py.version_cmp (plain_version a) (plain_version b) = 0 <-> a = b) /\
     (0 < Py.version_cmp (plain_version a) (plain_version b) <-> lex_lt b a)) /\
  Py.parse_version "10.6.6" = Some (plain_version (10, 6, 6)) /\
  Py.parse_version "10.10" = Some (plain_version (10, 10, 0)) /\
  (forall h w,
     eval (Yosemite.is_system_version_supported h) w = Some true <->
     exists v, Py.parse_version (ProductVersion h) = Some v /\
               0 <= Py.version_cmp v (plain_version (10, 6, 6)) /\
               Py.version_cmp v (plain_version (10, 10, 0)) < 0) /\
  (forall h w,
     eval (HighSierra.is_system_version_supported h) w = Some true <->
     exists v, Py.parse_version (ProductVersion h) = Some v /\
               0 <= Py.version_cmp v (plain_version (10, 8, 0)) /\
               Py.version_cmp v (plain_version (10, 13, 0)) < 0).
Proof.
  do 3 (split; [ reflexivity | ]).
  split; [ apply version_cmp_plain | ].
  do 2 (split; [ reflexivity | ]).
  split; intros h w.
  - destruct (Py.parse_version (ProductVersion h)) as [v|] eqn:E.
    + rewrite (yosemite_version_run h w v E). split.
      * intros [= H]. exists v. split; [ done | ]. by apply version_in_range.
      * intros (v' & [= <-] & H). f_equal. by apply version_in_range.
    + destruct (version_check_raises_on_malformed h w E) as [-> _].
      split; [ discriminate | ]. by intros (v & ? & _).
  - destruct (Py.parse_version (ProductVersion h)) as [v|] eqn:E.
    + rewrite (highsierra_version_run h w v E). split.
      * intros [= H]. exists v. split; [ done | ]. by apply version_in_range.
      * intros (v' & [= <-] & H). f_equal. by apply version_in_range.
    + destruct (version_check_raises_on_malformed h w E) as [_ ->].
      split; [ discriminate | ]. by intros (v & ? & _).
Qed.

Lemma version_comparison_is_componentwise_witness :
  eval (Yosemite.is_system_version_supported Examples.imac) Examples.fresh
  = Some true.
Proof.
  destruct version_comparison_is_componentwise as (_ & _ & _ & _ & _ & _ & H & _).
  apply H. exists (plain_version (10, 9, 5)).
  split; [ reflexivity | ]. split; vm_compute; [ discriminate | reflexivity ].
Defined.

(* ===================================================================== *)
(** ** Board id and model *)
(* ===================================================================== *)

Lemma is_virtual_machine_loop_cases features :
  (forall w, Common.is_virtual_machine_loop true features w =
             Return true (emit [ Common.format_line "Board ID" "Virtual machine" "OK" ] w))
  \/ (forall w, Common.is_virtual_machine_loop true features w = Return false w).
Proof.
  induction features as [|feature rest IH]; simpl.
  - by right.
  - destruct (String.eqb feature "VMM"); [ by left | exact IH ].
Qed.

Lemma is_virtual_machine_cases h :
  (forall w, Common.is_virtual_machine true h w =
             Return true (emit [ Common.format_line "Board ID" "Virtual machine" "OK" ] w))
  \/ (forall w, Common.is_virtual_machine true h w = Return false w).
Proof. apply is_virtual_machine_loop_cases. Qed.

Lemma is_virtual_machine_run h w vm :
  eval (Common.is_virtual_machine true h) w = Some vm ->
  forall w', Common.is_virtual_machine true h w' =
    if vm
    then Return true (emit [ Common.format_line "Board ID" "Virtual machine" "OK" ] w')
    else Return false w'.
Proof.
  unfold eval. destruct (is_virtual_machine_cases h) as [H | H];
    rewrite H; intros [= <-]; exact H.
Qed.

Lemma get_board_id_run h w :
  Common.get_board_id h w =
    Return (if Py.startswith (Py.strip (Common.re_sub_board_id (ioreg_board_id h))) "Mac"
            then Some (Py.strip (Common.re_sub_board_id (ioreg_board_id h)))
            else None) w.
Proof.
  unfold Common.get_board_id. by destruct (Py.startswith _ _).
Qed.

Lemma get_board_id_eval h w board_id :
  eval (Common.get_board_id h) w = Some board_id ->
  forall w', Common.get_board_id h w' = Return board_id w'.
Proof.
  unfold eval. rewrite get_board_id_run. intros [= <-] w'.
  apply get_board_id_run.
Qed.

Lemma yosemite_board_id_run h w vm board_id :
  eval (Yosemite.is_virtual_machine h) w = Some vm ->
  eval (Yosemite.get_board_id h) w = Some board_id ->
  Yosemite.is_supported_board_id h w =
    if vm
    then Return true (emit [ Common.format_line "Board ID" "Virtual machine" "OK" ] w)
    else if Py.in_list board_id Yosemite.platform_support_values
    then Return true
           (emit [ Common.format_line "Board ID" (Py.str_of_opt board_id) "OK" ] w)
    else Return false
           (emit [ Common.format_line "Board ID"
                     (Common.quoted (Py.str_of_opt board_id) +:+ " is not supported")
                     "Failed" ] w).
Proof.
  intros Evm Eb. unfold Yosemite.is_supported_board_id, bind.
  unfold Yosemite.is_virtual_machine, Yosemite.verbose in *.
  rewrite (is_virtual_machine_run _ _ _ Evm).
  destruct vm; [ reflexivity | ].
  unfold Yosemite.get_board_id in *. rewrite (get_board_id_eval _ _ _ Eb).
  destruct (Py.in_list board_id Yosemite.platform_support_values); reflexivity.
Qed.

Lemma highsierra_board_id_run h w board_id :
  eval (HighSierra.get_board_id h) w = Some board_id ->
  HighSierra.is_supported_board_id h w =
    if Py.in_list board_id HighSierra.platform_support_values
    then Return true
           (emit [ Common.format_line "Board ID" (Py.str_of_opt board_id) "OK" ] w)
    else Return false
           (emit [ Common.format_line "Board ID"
                     (Common.quoted (Py.str_of_opt board_id) +:+ " is not supported")
                     "Failed" ] w).
Proof.
  intros Eb. unfold HighSierra.is_supported_board_id, bind.
  unfold HighSierra.get_board_id in *. rewrite (get_board_id_eval _ _ _ Eb).
  destruct (Py.in_list board_id HighSierra.platform_support_values); reflexivity.
Qed.

Lemma highsierra_model_run h w :
  HighSierra.is_supported_model h w =
    if Py.in_list (Some (Py.strip (sysctl_model h))) HighSierra.non_supported_models
    then Return false
           (emit [ Common.format_line "Model"
                     (Common.quoted (Py.strip (sysctl_model h)) +:+ " is not supported")
                     "Failed" ] w)
    else Return true
           (emit [ Common.format_line "Model" (Py.strip (sysctl_model h)) "OK" ] w).
Proof.
  unfold HighSierra.is_supported_model, HighSierra.get_current_model, bind, ret.
  destruct (Py.in_list _ _); reflexivity.
Qed.

(** The three rules return from every world, with one line printed. *)
Lemma board_id_and_model_rules_total h w :
  (exists b line, Yosemite.is_supported_board_id h w = Return b (emit [ line ] w)) /\
  (exists b line, HighSierra.is_supported_board_id h w = Return b (emit [ line ] w)) /\
  (exists b line, HighSierra.is_supported_model h w = Return b (emit [ line ] w)).
Proof.
  assert (Eb : exists board_id, eval (Common.get_board_id h) w = Some board_id).
  { unfold eval. rewrite get_board_id_run. eauto. }
  destruct Eb as [board_id Eb].
  assert (Evm : exists vm, eval (Common.is_virtual_machine true h) w = Some vm).
  { unfold eval. destruct (is_virtual_machine_cases h) as [H | H]; rewrite H; eauto. }
  destruct Evm as [vm Evm].
  split; [ | split ].
  - rewrite (yosemite_board_id_run h w vm board_id Evm Eb).
    destruct vm; [ eauto | ]. destruct (Py.in_list _ _); eauto.
  - rewrite (highsierra_board_id_run h w board_id Eb).
    destruct (Py.in_list _ _); eauto.
  - rewrite highsierra_model_run. destruct (Py.in_list _ _); eauto.
Qed.

(** C6, as the scripts have it.  When no board id is read ([get_board_id]
    returns None: the text is absent or does not start with Mac), High
    Sierra's board-id rule fails with the line that None is not supported,
    and so does Yosemite's on a machine that is not a virtual machine; on a
    virtual machine Yosemite's rule passes before the board id is read.  An
    empty model identifier, on any machine, is not in the list of excluded
    models, so the model rule passes.  None of the three rules raises: each
    returns after printing one line. *)
Theorem missing_board_id_fails_missing_model_passes (h hm : host) (w : world) :
  eval (Common.get_board_id h) w = Some None ->
  Py.strip (sysctl_model hm) = EmptyString ->
  Py.startswith (Py.strip (Common.re_sub_board_id (ioreg_board_id h))) "Mac" = false /\
  HighSierra.is_supported_board_id h w =
    Return false
      (emit [ Common.format_line "Board ID"
                (Common.quoted "None" +:+ " is not supported") "Failed" ] w) /\
  (eval (Yosemite.is_virtual_machine h) w = Some false ->
   Yosemite.is_supported_board_id h w =
     Return false
       (emit [ Common.format_line "Board ID"
                 (Common.quoted "None" +:+ " is not supported") "Failed" ] w)) /\
  (eval (Yosemite.is_virtual_machine h) w = Some true ->
   Yosemite.is_supported_board_id h w =
     Return true
       (emit [ Common.format_line "Board ID" "Virtual machine" "OK" ] w)) /\
  HighSierra.is_supported_model hm w =
    Return true (emit [ Common.format_line "Model" EmptyString "OK" ] w) /\
  (forall h' w',
     (exists b line, Yosemite.is_supported_board_id h' w' = Return b (emit [ line ] w')) /\
     (exists b line, HighSierra.is_supported_board_id h' w' = Return b (emit [ line ] w')) /\
     (exists b line, HighSierra.is_supported_model h' w' = Return b (emit [ line ] w'))).
Proof.
  intros Eb Em. split; [ | split; [ | split; [ | split; [ | split ] ] ] ].
  - revert Eb. unfold eval. rewrite get_board_id_run.
    by destruct (Py.startswith _ _).
  - by rewrite (highsierra_board_id_run h w None Eb).
  - intros Evm. by rewrite (yosemite_board_id_run h w false None Evm Eb).
  - intros Evm. by rewrite (yosemite_board_id_run h w true None Evm Eb).
  - rewrite highsierra_model_run, Em. reflexivity.
  - apply board_id_and_model_rules_total.
Qed.

Lemma missing_board_id_fails_missing_model_passes_witness :
  Py.startswith
    (Py.strip (Common.re_sub_board_id (ioreg_board_id Examples.blank))) "Mac" = false /\
  HighSierra.is_supported_board_id Examples.blank Examples.fresh =
    Return false
      (emit [ Common.format_line "Board ID"
                (Common.quoted "None" +:+ " is not supported") "Failed" ]
         Examples.fresh) /\
  (eval (Yosemite.is_virtual_machine Examples.blank) Examples.fresh = Some false ->
   Yosemite.is_supported_board_id Examples.blank Examples.fresh =
     Return false
       (emit [ Common.format_line "Board ID"
                 (Common.quoted "None" +:+ " is not supported") "Failed" ]
          Examples.fresh)) /\
  (eval (Yosemite.is_virtual_machine Examples.blank) Examples.fresh = Some true ->
   Yosemite.is_supported_board_id Examples.blank Examples.fresh =
     Return true
       (emit [ Common.format_line "Board ID" "Virtual machine" "OK" ] Examples.fresh)) /\
  HighSierra.is_supported_model Examples.no_model Examples.fresh =
    Return true
      (emit [ Common.format_line "Model" EmptyString "OK" ] Examples.fresh) /\
  (forall h' w',
     (exists b line, Yosemite.is_supported_board_id h' w' = Return b (emit [ line ] w')) /\
     (exists b line, HighSierra.is_supported_board_id h' w' = Return b (emit [ line ] w')) /\
     (exists b line, HighSierra.is_supported_model h' w' = Return b (emit [ line ] w'))).
Proof.
  apply (missing_board_id_fails_missing_model_passes Examples.blank
           Examples.no_model Examples.fresh);
    vm_compute; reflexivity.
Defined.

(** C6, as claimed, fails twice.  A machine that reports no model passes
    High Sierra's model rule, with [OK] for detail; and a virtual machine
    that reports no board id passes Yosemite's board-id rule. *)
Lemma missing_facts_do_not_always_fail :
  Py.strip (sysctl_model Examples.blank) = EmptyString /\
  HighSierra.is_supported_model Examples.blank Examples.fresh =
    Return true
      (emit [ "         Model:                                          [OK]" ]
         Examples.fresh) /\
  eval (Yosemite.get_board_id Examples.guest) Examples.fresh = Some None /\
  Yosemite.is_supported_board_id Examples.guest Examples.fresh =
    Return true
      (emit [ "      Board ID: Virtual machine                          [OK]" ]
         Examples.fresh).
Proof. repeat split; vm_compute; reflexivity. Qed.

(** [x in l] on a list of strings is membership. *)
Lemma in_list_In (s : string) (l : list string) :
  Py.in_list (Some s) l = true <-> In s l.
Proof.
  unfold Py.in_list. rewrite existsb_exists. split.
  - intros (x & Hx & E). apply String.eqb_eq in E. by subst.
  - intros H. exists s. split; [ done | apply String.eqb_refl ].
Qed.

(** C9. Yosemite's list holds the two identifiers Mac-F2218EC8 and
    Mac-F2218FA9 as one entry, their concatenation.  On a machine that is
    not a virtual machine the board-id check fails for either identifier and
    passes for the concatenated text. *)
Theorem yosemite_concatenated_board_id_entry
    (h : host) (w : world) (board_id : string) :
  eval (Yosemite.is_virtual_machine h) w = Some false ->
  eval (Yosemite.get_board_id h) w = Some (Some board_id) ->
  (board_id = "Mac-F2218EC8" \/ board_id = "Mac-F2218FA9" ->
   Yosemite.is_supported_board_id h w =
     Return false
       (emit [ Common.format_line "Board ID"
                 (Common.quoted board_id +:+ " is not supported") "Failed" ] w)) /\
  (board_id = "Mac-F2218EC8Mac-F2218FA9" ->
   Yosemite.is_supported_board_id h w =
     Return true (emit [ Common.format_line "Board ID" board_id "OK" ] w)) /\
  In "Mac-F2218EC8Mac-F2218FA9" Yosemite.platform_support_values /\
  ~ In "Mac-F2218EC8" Yosemite.platform_support_values /\
  ~ In "Mac-F2218FA9" Yosemite.platform_support_values.
Proof.
  intros Evm Eb.
  rewrite (yosemite_board_id_run h w false (Some board_id) Evm Eb).
  split; [ | split; [ | split; [ | split ] ] ].
  - by intros [-> | ->].
  - by intros ->.
  - apply in_list_In. reflexivity.
  - intros H. apply in_list_In in H. vm_compute in H. discriminate.
  - intros H. apply in_list_In in H. vm_compute in H. discriminate.
Qed.

Lemma yosemite_concatenated_board_id_entry_witness :
  ("Mac-F2218EC8" = "Mac-F2218EC8" \/ "Mac-F2218EC8" = "Mac-F2218FA9" ->
   Yosemite.is_supported_board_id (Examples.with_board_id "Mac-F2218EC8") Examples.fresh =
     Return false
       (emit [ Common.format_line "Board ID"
                 (Common.quoted "Mac-F2218EC8" +:+ " is not supported") "Failed" ]
          Examples.fresh)) /\
  ("Mac-F2218EC8" = "Mac-F2218EC8Mac-F2218FA9" ->
   Yosemite.is_supported_board_id (Examples.with_board_id "Mac-F2218EC8") Examples.fresh =
     Return true
       (emit [ Common.format_line "Board ID" "Mac-F2218EC8" "OK" ] Examples.fresh)) /\
  In "Mac-F2218EC8Mac-F2218FA9" Yosemite.platform_support_values /\
  ~ In "Mac-F2218EC8" Yosemite.platform_support_values /\
  ~ In "Mac-F2218FA9" Yosemite.platform_support_values.
Proof.
  apply (yosemite_concatenated_board_id_entry
           (Examples.with_board_id "Mac-F2218EC8") Examples.fresh "Mac-F2218EC8");
    vm_compute; reflexivity.
Defined.

(* ===================================================================== *)
(** ** Text lemmas *)
(* ===================================================================== *)

Lemma append_cons c (a b : string) : String c a +:+ b = String c (a +:+ b).
Proof. reflexivity. Qed.

Lemma append_assoc (a b c : string) : (a +:+ b) +:+ c = a +:+ (b +:+ c).
Proof.
  induction a as [|x a IH]; [ done | ]. by rewrite !append_cons, IH.
Qed.

Lemma length_append (a b : string) :
  String.length (a +:+ b) = (String.length a + String.length b)%nat.
Proof.
  induction a as [|x a IH]; [ done | ]. rewrite append_cons. simpl. by rewrite IH.
Qed.

Lemma length_spaces n : String.length (Py.spaces n) = n.
Proof. induction n as [|n IH]; simpl; [ done | by rewrite IH ]. Qed.

Lemma rstrip_append_nl (s : string) :
  Py.rstrip (s +:+ String Py.nl EmptyString) = Py.rstrip s.
Proof.
  induction s as [|c s IH]; [ done | ].
  rewrite append_cons. simpl. by rewrite IH.
Qed.

Lemma strip_prefix_append (p s : string) : Py.strip_prefix p (p +:+ s) = Some s.
Proof.
  induction p as [|c p IH]; [ by destruct s | ].
  rewrite append_cons. simpl. by rewrite Ascii.eqb_refl.
Qed.

Lemma strip_suffix_cons suf c s :
  Py.strip_suffix suf (String c s) =
    if String.eqb (String c s) suf then Some EmptyString
    else option_map (String c) (Py.strip_suffix suf s).
Proof. reflexivity. Qed.

Lemma strip_suffix_append (suf x : string) :
  Py.strip_suffix suf (x +:+ suf) = Some x.
Proof.
  induction x as [|c x IH].
  - change (EmptyString +:+ suf) with suf.
    destruct suf; simpl; by rewrite ?String.eqb_refl, ?Ascii.eqb_refl.
  - rewrite append_cons, strip_suffix_cons.
    destruct (String.eqb_spec (String c (x +:+ suf)) suf) as [E | _].
    + apply (f_equal String.length) in E. simpl in E.
      rewrite length_append in E. lia.
    + by rewrite IH.
Qed.

(* ===================================================================== *)
(** ** Virtual machines, board ids and models, from the text read *)
(* ===================================================================== *)

Lemma is_virtual_machine_loop_In features :
  (In "VMM" features /\
   forall w, Common.is_virtual_machine_loop true features w =
             Return true (emit [ Common.format_line "Board ID" "Virtual machine" "OK" ] w))
  \/ (~ In "VMM" features /\
      forall w, Common.is_virtual_machine_loop true features w = Return false w).
Proof.
  induction features as [|feature rest IH].
  - right. split; [ by intros [] | done ].
  - simpl Common.is_virtual_machine_loop.
    destruct (String.eqb_spec feature "VMM") as [-> | N].
    + left. split; [ by left | done ].
    + destruct IH as [[Hin H] | [Hout H]].
      * left. split; [ by right | done ].
      * right. split; [ | done ]. intros [E | Hin]; [ done | by apply Hout ].
Qed.

(** X1. Either script takes the machine for a virtual machine exactly when
    one of the blank-separated words of the CPU features text is VMM; it
    then prints the virtual-machine line once, however often the word
    occurs, and prints nothing otherwise. *)
Theorem is_virtual_machine_iff_VMM_word (h : host) (w : world) :
  (eval (Yosemite.is_virtual_machine h) w = Some true
   <-> In "VMM" (Py.split (sysctl_cpu_features h))) /\
  (eval (HighSierra.is_virtual_machine h) w = Some true
   <-> In "VMM" (Py.split (sysctl_cpu_features h))) /\
  (In "VMM" (Py.split (sysctl_cpu_features h)) ->
   Yosemite.is_virtual_machine h w =
     Return true (emit [ Common.format_line "Board ID" "Virtual machine" "OK" ] w)) /\
  (~ In "VMM" (Py.split (sysctl_cpu_features h)) ->
   Yosemite.is_virtual_machine h w = Return false w).
Proof.
  unfold Yosemite.is_virtual_machine, HighSierra.is_virtual_machine,
    Yosemite.verbose, HighSierra.verbose, Common.is_virtual_machine, eval.
  destruct (is_virtual_machine_loop_In (Py.split (sysctl_cpu_features h)))
    as [[Hin H] | [Hout H]]; rewrite !H.
  - repeat split; try done.
  - repeat split; try done; by intros [=].
Qed.

(** What [get_board_id] makes of the line [ioreg] prints for a board id. *)
Lemma re_sub_board_id_ioreg_line board_id :
  Py.contains_char Py.nl board_id = false ->
  Common.re_sub_board_id (Examples.ioreg_line board_id)
  = board_id +:+ String Py.nl EmptyString.
Proof.
  intros Hnl. unfold Common.re_sub_board_id, Examples.ioreg_line, Examples.line.
  set (opening := String Py.dq ("board-id" +:+ String Py.dq (" = <" +:+ String Py.dq EmptyString))).
  set (tail := board_id +:+ String Py.dq (">" +:+ String Py.nl EmptyString)).
  assert (E : Py.lstrip ("    " +:+ String Py.dq ("board-id" +:+ String Py.dq
               (" = <" +:+ String Py.dq tail))) = opening +:+ tail) by reflexivity.
  rewrite E, strip_prefix_append. subst tail.
  change (board_id +:+ String Py.dq (">" +:+ String Py.nl EmptyString))
    with (board_id +:+ (String Py.dq ">" +:+ String Py.nl EmptyString)).
  rewrite <- append_assoc, strip_suffix_append, strip_suffix_append, Hnl.
  reflexivity.
Qed.

(** X2. When [ioreg] prints the usual line for a board id that has no
    newline in it and no blanks around it, [get_board_id] returns that board
    id if it starts with Mac, and None if it does not. *)
Theorem get_board_id_reads_ioreg_line (h : host) (w : world) (board_id : string) :
  ioreg_board_id h = Examples.ioreg_line board_id ->
  Py.contains_char Py.nl board_id = false ->
  Py.strip board_id = board_id ->
  Common.get_board_id h w =
    Return (if Py.startswith board_id "Mac" then Some board_id else None) w.
Proof.
  intros Ei Hnl Hs. rewrite get_board_id_run, Ei.
  rewrite (re_sub_board_id_ioreg_line _ Hnl).
  unfold Py.strip in *. by rewrite rstrip_append_nl, Hs.
Qed.

Lemma get_board_id_reads_ioreg_line_witness :
  Common.get_board_id Examples.imac Examples.fresh =
    Return (if Py.startswith "Mac-F2268DC8" "Mac" then Some "Mac-F2268DC8" else None)
      Examples.fresh.
Proof.
  apply (get_board_id_reads_ioreg_line Examples.imac Examples.fresh "Mac-F2268DC8");
    reflexivity.
Defined.

Lemma in_list_false_iff (s : string) (l : list string) :
  Py.in_list (Some s) l = false <-> ~ In s l.
Proof.
  rewrite <- in_list_In. by destruct (Py.in_list (Some s) l).
Qed.

(** Every board id of either list, and every model of the excluded list,
    has no newline in it, no blanks around it; the board ids start with
    Mac. *)
Lemma listed_texts_are_clean :
  (forall s, In s HighSierra.platform_support_values \/
             In s Yosemite.platform_support_values ->
             Py.contains_char Py.nl s = false /\ Py.strip s = s /\
             Py.startswith s "Mac" = true) /\
  (forall s, In s HighSierra.non_supported_models -> Py.strip s = s).
Proof.
  split.
  - assert (F : forallb (fun s => negb (Py.contains_char Py.nl s)
                                  && String.eqb (Py.strip s) s
                                  && Py.startswith s "Mac")
                  (HighSierra.platform_support_values ++ Yosemite.platform_support_values)
                = true) by (vm_compute; reflexivity).
    rewrite forallb_forall in F. intros s Hs.
    apply in_or_app, F in Hs.
    apply andb_true_iff in Hs as [Hs H3]. apply andb_true_iff in Hs as [H1 H2].
    apply negb_true_iff in H1. apply String.eqb_eq in H2. done.
  - assert (F : forallb (fun s => String.eqb (Py.strip s) s)
                  HighSierra.non_supported_models = true) by (vm_compute; reflexivity).
    rewrite forallb_forall in F. intros s Hs. by apply String.eqb_eq, F.
Qed.

(** X3. On a machine whose [ioreg] prints the usual line for a board id
    without newline and without blanks around it, High Sierra's board-id
    check passes exactly when that text is an entry of its list, and so does
    Yosemite's on a machine that is not a virtual machine: the match is on
    the whole text, letter case included.  Every entry of either list is
    such a text, so each of them is accepted when [ioreg] prints it. *)
Theorem board_id_check_is_list_membership
    (h : host) (w : world) (board_id : string) :
  ioreg_board_id h = Examples.ioreg_line board_id ->
  Py.contains_char Py.nl board_id = false ->
  Py.strip board_id = board_id ->
  (eval (HighSierra.is_supported_board_id h) w = Some true
   <-> In board_id HighSierra.platform_support_values) /\
  (eval (HighSierra.is_supported_board_id h) w = Some false
   <-> ~ In board_id HighSierra.platform_support_values) /\
  (eval (Yosemite.is_virtual_machine h) w = Some false ->
   (eval (Yosemite.is_supported_board_id h) w = Some true
    <-> In board_id Yosemite.platform_support_values)) /\
  (forall s, In s HighSierra.platform_support_values \/
             In s Yosemite.platform_support_values ->
             Py.contains_char Py.nl s = false /\ Py.strip s = s).
Proof.
  intros Ei Hnl Hs.
  pose proof (get_board_id_reads_ioreg_line h w board_id Ei Hnl Hs) as Hg.
  assert (Eg : eval (Common.get_board_id h) w
               = Some (if Py.startswith board_id "Mac" then Some board_id else None))
    by (unfold eval; by rewrite Hg).
  destruct listed_texts_are_clean as [Hclean _].
  assert (Hin : forall l, (l = HighSierra.platform_support_values \/
                           l = Yosemite.platform_support_values) ->
            Py.in_list (if Py.startswith board_id "Mac" then Some board_id else None) l
            = true <-> In board_id l).
  { intros l Hl. destruct (Py.startswith board_id "Mac") eqn:Em.
    - apply in_list_In.
    - split; [ done | ]. intros Hb.
      assert (Py.startswith board_id "Mac" = true) as Em'
        by (apply Hclean; destruct Hl as [-> | ->]; auto).
      congruence. }
  split; [ | split; [ | split ] ].
  - unfold eval. rewrite (highsierra_board_id_run h w _ Eg).
    rewrite <- (Hin _ (or_introl eq_refl)).
    destruct (Py.in_list _ _); split; (done || by intros [=]).
  - unfold eval. rewrite (highsierra_board_id_run h w _ Eg).
    rewrite <- (Hin _ (or_introl eq_refl)).
    destruct (Py.in_list _ _); split; (done || by intros [=]).
  - intros Evm. unfold eval. rewrite (yosemite_board_id_run h w false _ Evm Eg).
    rewrite <- (Hin _ (or_intror eq_refl)).
    destruct (Py.in_list _ _); split; (done || by intros [=]).
  - intros s Hs'. by destruct (Hclean s Hs') as (? & ? & _).
Qed.

Lemma board_id_check_is_list_membership_witness :
  (eval (HighSierra.is_supported_board_id Examples.imac) Examples.fresh = Some true
   <-> In "Mac-F2268DC8" HighSierra.platform_support_values) /\
  (eval (HighSierra.is_supported_board_id Examples.imac) Examples.fresh = Some false
   <-> ~ In "Mac-F2268DC8" HighSierra.platform_support_values) /\
  (eval (Yosemite.is_virtual_machine Examples.imac) Examples.fresh = Some false ->
   (eval (Yosemite.is_supported_board_id Examples.imac) Examples.fresh = Some true
    <-> In "Mac-F2268DC8" Yosemite.platform_support_values)) /\
  (forall s, In s HighSierra.platform_support_values \/
             In s Yosemite.platform_support_values ->
             Py.contains_char Py.nl s = false /\ Py.strip s = s).
Proof.
  apply (board_id_check_is_list_membership Examples.imac Examples.fresh "Mac-F2268DC8");
    reflexivity.
Defined.

(** X4. On a machine whose [sysctl -n hw.model] prints a model identifier
    without blanks around it, followed by a newline, High Sierra's model
    check fails exactly when the identifier is an entry of the list of
    excluded models, and passes for every other identifier; every entry of
    the list is such an identifier. *)
Theorem model_check_is_denylist_membership
    (h : host) (w : world) (model : string) :
  sysctl_model h = Examples.line model ->
  Py.strip model = model ->
  (eval (HighSierra.is_supported_model h) w = Some false
   <-> In model HighSierra.non_supported_models) /\
  (eval (HighSierra.is_supported_model h) w = Some true
   <-> ~ In model HighSierra.non_supported_models) /\
  (forall s, In s HighSierra.non_supported_models -> Py.strip s = s).
Proof.
  intros Em Hs.
  assert (E : Py.strip (sysctl_model h) = model).
  { rewrite Em. unfold Examples.line, Py.strip in *. by rewrite rstrip_append_nl. }
  unfold eval. rewrite highsierra_model_run, E.
  split; [ | split ].
  - rewrite <- in_list_In. destruct (Py.in_list _ _); split; (done || by intros [=]).
  - rewrite <- in_list_false_iff. destruct (Py.in_list _ _); split; (done || by intros [=]).
  - apply listed_texts_are_clean.
Qed.

Lemma model_check_is_denylist_membership_witness :
  (eval (HighSierra.is_supported_model Examples.imac) Examples.fresh = Some false
   <-> In "iMac4,1" HighSierra.non_supported_models) /\
  (eval (HighSierra.is_supported_model Examples.imac) Examples.fresh = Some true
   <-> ~ In "iMac4,1" HighSierra.non_supported_models) /\
  (forall s, In s HighSierra.non_supported_models -> Py.strip s = s).
Proof.
  apply (model_check_is_denylist_membership Examples.imac Examples.fresh "iMac4,1");
    reflexivity.
Defined.

(* ===================================================================== *)
(** ** Memory: what is reported and what is decided *)
(* ===================================================================== *)

(** X5. The memory check reports the whole number of GiB in the size read,
    [g = n div 1024^3], and its verdict agrees with the number it prints:
    it passes exactly when [g >= 2]. *)
Theorem memory_report_agrees_with_verdict (h : host) (w : world) (n : Z) :
  Py.int_of_str (sysctl_memsize h) = Some n ->
  let g := n / 1024 / 1024 / 1024 in
  g * 1024 ^ 3 <= n < (g + 1) * 1024 ^ 3 /\
  (eval (Yosemite.has_required_amount_of_memory h) w = Some true <-> 2 <= g) /\
  exists detail,
    Yosemite.has_required_amount_of_memory h w =
      Return (2 <=? g)
        (emit [ Common.format_line "Memory" (Py.str_of_int g +:+ detail)
                  (if 2 <=? g then "OK" else "Failed") ] w).
Proof.
  intros E g.
  assert (Hg : g = n / 1024 ^ 3).
  { subst g. rewrite !Z.div_div by lia. reflexivity. }
  assert (Hb : g * 1024 ^ 3 <= n < (g + 1) * 1024 ^ 3).
  { rewrite Hg.
    pose proof (Z.div_mod n (1024 ^ 3) ltac:(lia)).
    pose proof (Z.mod_pos_bound n (1024 ^ 3) ltac:(lia)). lia. }
  assert (Hv : (2 * 1024 ^ 3 <=? n) = (2 <=? g)).
  { destruct (Z.leb_spec 2 g), (Z.leb_spec (2 * 1024 ^ 3) n); try done; lia. }
  split; [ exact Hb | ]. unfold eval.
  rewrite (has_required_amount_of_memory_run h w n E), Hv.
  split.
  - destruct (Z.leb_spec 2 g); split; (done || lia || by intros [=]).
  - destruct (2 <=? g); eauto.
Qed.

Lemma memory_report_agrees_with_verdict_witness :
  let g := 8589934592 / 1024 / 1024 / 1024 in
  g * 1024 ^ 3 <= 8589934592 < (g + 1) * 1024 ^ 3 /\
  (eval (Yosemite.has_required_amount_of_memory Examples.imac) Examples.fresh
   = Some true <-> 2 <= g) /\
  exists detail,
    Yosemite.has_required_amount_of_memory Examples.imac Examples.fresh =
      Return (2 <=? g)
        (emit [ Common.format_line "Memory" (Py.str_of_int g +:+ detail)
                  (if 2 <=? g then "OK" else "Failed") ] Examples.fresh).
Proof.
  apply (memory_report_agrees_with_verdict Examples.imac Examples.fresh 8589934592).
  vm_compute. reflexivity.
Defined.

(* ===================================================================== *)
(** ** The lines a run prints, and when a run returns *)
(* ===================================================================== *)

Lemma yosemite_version_lines h w v :
  Py.parse_version (ProductVersion h) = Some v ->
  Yosemite.is_system_version_supported h w =
    Return (negb (Py.version_ge v (plain_version (10, 10, 0)))
            && Py.version_ge v (plain_version (10, 6, 6)))
      (emit [ Common.format_line "System"
                (ProductName h +:+ " " +:+ ProductVersion h)
                (if negb (Py.version_ge v (plain_version (10, 10, 0)))
                    && Py.version_ge v (plain_version (10, 6, 6))
                 then "OK" else "Failed") ] w).
Proof.
  intros E. unfold Yosemite.is_system_version_supported, bind.
  rewrite !(StrictVersion_run _ v) by done.
  rewrite (StrictVersion_run "10.10" (plain_version (10, 10, 0))) by reflexivity.
  unfold StrictVersion_ge at 1, ret at 1.
  destruct (Py.version_ge v (plain_version (10, 10, 0))); [ reflexivity | ].
  rewrite !(StrictVersion_run _ v) by done.
  rewrite (StrictVersion_run "10.6.6" (plain_version (10, 6, 6))) by reflexivity.
  unfold StrictVersion_ge at 1, ret at 1.
  destruct (Py.version_ge v (plain_version (10, 6, 6))); reflexivity.
Qed.

Lemma highsierra_version_lines h w v :
  Py.parse_version (ProductVersion h) = Some v ->
  HighSierra.is_system_version_supported h w =
    Return (negb (Py.version_ge v (plain_version (10, 13, 0)))
            && Py.version_ge v (plain_version (10, 8, 0)))
      (emit [ Common.format_line "System"
                (ProductName h +:+ " " +:+ ProductVersion h)
                (if negb (Py.version_ge v (plain_version (10, 13, 0)))
                    && Py.version_ge v (plain_version (10, 8, 0))
                 then "OK" else "Failed") ] w).
Proof.
  intros E. unfold HighSierra.is_system_version_supported, bind.
  rewrite !(StrictVersion_run _ v) by done.
  rewrite (StrictVersion_run "10.13" (plain_version (10, 13, 0))) by reflexivity.
  unfold StrictVersion_ge at 1, ret at 1.
  destruct (Py.version_ge v (plain_version (10, 13, 0))); [ reflexivity | ].
  rewrite !(StrictVersion_run _ v) by done.
  rewrite (StrictVersion_run "10.8" (plain_version (10, 8, 0))) by reflexivity.
  unfold StrictVersion_ge at 1, ret at 1.
  destruct (Py.version_ge v (plain_version (10, 8, 0))); reflexivity.
Qed.

(** Each check of Yosemite's [main] that returns prints one line, under its
    own label, closed by OK or Failed as it returns True or False. *)
Lemma yosemite_board_id_line h :
  exists (b : bool) (s : string), forall w,
    Yosemite.is_supported_board_id h w =
      Return b (emit [ Common.format_line "Board ID" s (if b then "OK" else "Failed") ] w).
Proof.
  unfold Yosemite.is_supported_board_id, bind, Yosemite.is_virtual_machine,
    Yosemite.verbose, Yosemite.get_board_id.
  destruct (is_virtual_machine_cases h) as [H | H].
  - exists true, "Virtual machine". intros w. by rewrite H.
  - destruct (Py.in_list
                (if Py.startswith (Py.strip (Common.re_sub_board_id (ioreg_board_id h))) "Mac"
                 then Some (Py.strip (Common.re_sub_board_id (ioreg_board_id h)))
                 else None) Yosemite.platform_support_values) eqn:E.
    + exists true. eexists. intros w. rewrite H, get_board_id_run, E. reflexivity.
    + exists false. eexists. intros w. rewrite H, get_board_id_run, E. reflexivity.
Qed.

Lemma yosemite_memory_line h n :
  Py.int_of_str (sysctl_memsize h) = Some n ->
  exists s, forall w,
    Yosemite.has_required_amount_of_memory h w =
      Return (2 * 1024 ^ 3 <=? n)
        (emit [ Common.format_line "Memory" s
                  (if 2 * 1024 ^ 3 <=? n then "OK" else "Failed") ] w).
Proof.
  intros E. destruct (2 * 1024 ^ 3 <=? n) eqn:L; eexists; intros w;
    rewrite (has_required_amount_of_memory_run h w n E), L; reflexivity.
Qed.

Lemma yosemite_cpu_line h :
  exists s, forall w,
    Yosemite.is_64bit_capable h w =
      Return (Py.bool_of_str (sysctl_cpu64bit_capable h))
        (emit [ Common.format_line "CPU" s
                  (if Py.bool_of_str (sysctl_cpu64bit_capable h)
                   then "OK" else "Failed") ] w).
Proof.
  destruct (Py.bool_of_str (sysctl_cpu64bit_capable h)) eqn:E; eexists; intros w;
    rewrite is_64bit_capable_run, E; reflexivity.
Qed.

Lemma yosemite_main_lines h w n v :
  Py.int_of_str (sysctl_memsize h) = Some n ->
  Py.parse_version (ProductVersion h) = Some v ->
  exists board memory cpu version s1 s2 s3 s4,
    eval (Yosemite.is_supported_board_id h) w = Some board /\
    eval (Yosemite.has_required_amount_of_memory h) w = Some memory /\
    eval (Yosemite.is_64bit_capable h) w = Some cpu /\
    eval (Yosemite.is_system_version_supported h) w = Some version /\
    Yosemite.main h w =
      Return (if board && memory && cpu && version then 0 else 1)
        (emit [ Common.format_line "Board ID" s1 (if board then "OK" else "Failed");
                Common.format_line "Memory" s2 (if memory then "OK" else "Failed");
                Common.format_line "CPU" s3 (if cpu then "OK" else "Failed");
                Common.format_line "System" s4 (if version then "OK" else "Failed") ] w).
Proof.
  intros En Ev.
  destruct (yosemite_board_id_line h) as (b & s1 & Hb).
  destruct (yosemite_memory_line h n En) as (s2 & Hm).
  destruct (yosemite_cpu_line h) as (s3 & Hc).
  pose proof (fun w' => yosemite_version_lines h w' v Ev) as Hv.
  eexists _, _, _, _, s1, s2, s3, _. unfold eval.
  rewrite Hb, Hm, Hc, Hv.
  do 4 (split; [ reflexivity | ]).
  apply (yosemite_main_run h w _ _ _ _ _ _ _ _ Hb Hm Hc Hv).
Qed.

(** How a version check ends on a product version that does not parse: the
    empty text builds an instance without [version], and the comparison
    raises AttributeError; any other text makes [StrictVersion] raise
    ValueError. *)
Lemma version_check_raises_by_kind h :
  Py.parse_version (ProductVersion h) = None ->
  exists ey eh,
    (forall w, Yosemite.is_system_version_supported h w = Raise ey w) /\
    (forall w, HighSierra.is_system_version_supported h w = Raise eh w) /\
    (ProductVersion h = EmptyString ->
     exists msg, ey = AttributeError msg /\ eh = AttributeError msg) /\
    (ProductVersion h <> EmptyString ->
     exists msg, ey = ValueError msg /\ eh = ValueError msg).
Proof.
  intros E.
  unfold Yosemite.is_system_version_supported,
    HighSierra.is_system_version_supported, bind, StrictVersion.
  destruct (ProductVersion h) as [|c r] eqn:Ev.
  - eexists _, _. split; [ reflexivity | ]. split; [ reflexivity | ].
    split; [ eauto | done ].
  - rewrite E. eexists _, _. split; [ reflexivity | ]. split; [ reflexivity | ].
    split; [ done | eauto ].
Qed.



(** X6. When the memory size and the version are well formed, Yosemite's
    [main] prints exactly four lines, for the board id, the memory, the CPU
    and the system in that order; each line ends with OK or Failed as its
    check returned True or False, the exit code is 0 exactly when no line
    says Failed, and no file is touched. *)
Theorem yosemite_main_prints_four_lines
    (h : host) (w : world) (n : Z) (v : Py.strict_version) :
  Py.int_of_str (sysctl_memsize h) = Some n ->
  Py.parse_version (ProductVersion h) = Some v ->
  exists (board memory cpu version : bool) (s1 s2 s3 s4 : string) code w',
    eval (Yosemite.is_supported_board_id h) w = Some board /\
    eval (Yosemite.has_required_amount_of_memory h) w = Some memory /\
    eval (Yosemite.is_64bit_capable h) w = Some cpu /\
    eval (Yosemite.is_system_version_supported h) w = Some version /\
    Yosemite.main h w = Return code w' /\
    stdout w' =
      (stdout w
       ++ [ Common.format_line "Board ID" s1 (if board then "OK" else "Failed");
            Common.format_line "Memory" s2 (if memory then "OK" else "Failed");
            Common.format_line "CPU" s3 (if cpu then "OK" else "Failed");
            Common.format_line "System" s4 (if version then "OK" else "Failed") ])%list /\
    (code = 0 <-> board = true /\ memory = true /\ cpu = true /\ version = true) /\
    (code = 0 \/ code = 1) /\
    fs w' = fs w.
Proof.
  intros En Ev.
  destruct (yosemite_main_lines h w n v En Ev)
    as (b & m & c & vs & s1 & s2 & s3 & s4 & E1 & E2 & E3 & E4 & R).
  exists b, m, c, vs, s1, s2, s3, s4. rewrite R. eexists _, _.
  do 5 (split; [ done | ]).
  split; [ reflexivity | ].
  destruct b, m, c, vs; simpl; intuition congruence.
Qed.

Lemma yosemite_main_prints_four_lines_witness :
  exists (board memory cpu version : bool) (s1 s2 s3 s4 : string) code w',
    eval (Yosemite.is_supported_board_id Examples.imac) Examples.fresh = Some board /\
    eval (Yosemite.has_required_amount_of_memory Examples.imac) Examples.fresh = Some memory /\
    eval (Yosemite.is_64bit_capable Examples.imac) Examples.fresh = Some cpu /\
    eval (Yosemite.is_system_version_supported Examples.imac) Examples.fresh = Some version /\
    Yosemite.main Examples.imac Examples.fresh = Return code w' /\
    stdout w' =
      (stdout Examples.fresh
       ++ [ Common.format_line "Board ID" s1 (if board then "OK" else "Failed");
            Common.format_line "Memory" s2 (if memory then "OK" else "Failed");
            Common.format_line "CPU" s3 (if cpu then "OK" else "Failed");
            Common.format_line "System" s4 (if version then "OK" else "Failed") ])%list /\
    (code = 0 <-> board = true /\ memory = true /\ cpu = true /\ version = true) /\
    (code = 0 \/ code = 1) /\
    fs w' = fs Examples.fresh.
Proof.
  apply (yosemite_main_prints_four_lines Examples.imac Examples.fresh
           8589934592 (plain_version (10, 9, 5))); reflexivity.
Defined.



(* ===================================================================== *)
(** ** Merging any dictionary, and stores that cannot be merged into *)
(* ===================================================================== *)



(** A store that is not usable makes the call raise from the world as it
    is. *)
Lemma append_conditional_items_unusable cip h p dictionary w :
  (forall w', cip h w' = Return p w') ->
  store_usable w p = false ->
  exists e, Common.append_conditional_items cip h dictionary w = Raise e w.
Proof.
  intros Hp Hu.
  destruct (bool_decide (p ∈ locked w)) eqn:Hl.
  { apply bool_decide_eq_true_1 in Hl.
    by apply (append_conditional_items_locked _ _ p). }
  unfold store_usable in Hu. rewrite Hl in Hu. simpl in Hu.
  unfold Common.append_conditional_items, bind.
  rewrite Hp. unfold path_exists, readPlist.
  destruct (fs w !! p) as [[root|]|] eqn:E; try discriminate.
  - rewrite bool_decide_eq_true_2, ?E by eauto.
    destruct root; try discriminate; unfold items, raise; eauto.
  - rewrite bool_decide_eq_true_2, ?E by eauto. eauto.
Qed.

(** X9. When the file at the path of the store is there but is no property
    list, or is one whose root is not a dictionary, merging raises before
    anything is written: the file and the rest of the world are as they
    were, also when the path is writable. *)
Theorem append_conditional_items_keeps_unreadable_store
    (r : release) (h : host) (w : world) (p : string)
    (dictionary : gmap string plist_value) :
  eval (conditional_items_path_of r h) w = Some p ->
  (fs w !! p = Some OtherFile \/
   exists root, fs w !! p = Some (PlistFile root) /\ forall m, root <> PDict m) ->
  exists e, append_conditional_items_of r h dictionary w = Raise e w.
Proof.
  intros Ep Hf.
  pose proof (conditional_items_path_eval _ _ _ _ Ep) as Hp.
  assert (Hu : store_usable w p = false).
  { unfold store_usable. destruct Hf as [-> | (root & -> & Hr)].
    - apply andb_false_r.
    - destruct root; try apply andb_false_r. by destruct (Hr d). }
  destruct r; simpl in *;
    unfold Yosemite.append_conditional_items, HighSierra.append_conditional_items;
    by apply (append_conditional_items_unusable _ _ p).
Qed.

Lemma append_conditional_items_keeps_unreadable_store_witness :
  exists e,
    append_conditional_items_of HighSierra_10_13 Examples.macbook
      {[ "high_sierra_supported" := PBool true ]} Examples.with_array_store
    = Raise e Examples.with_array_store.
Proof.
  apply (append_conditional_items_keeps_unreadable_store HighSierra_10_13
           Examples.macbook Examples.with_array_store Examples.default_path).
  - vm_compute. reflexivity.
  - right. eexists. split; [ vm_compute; reflexivity | done ].
Defined.

(* ===================================================================== *)
(** ** High Sierra's run: lines, files and exit code together *)
(* ===================================================================== *)

Lemma highsierra_model_line h :
  exists (b : bool) (s : string), forall w,
    HighSierra.is_supported_model h w =
      Return b (emit [ Common.format_line "Model" s (if b then "OK" else "Failed") ] w).
Proof.
  destruct (Py.in_list (Some (Py.strip (sysctl_model h)))
              HighSierra.non_supported_models) eqn:E.
  - exists false. eexists. intros w. rewrite highsierra_model_run, E. reflexivity.
  - exists true. eexists. intros w. rewrite highsierra_model_run, E. reflexivity.
Qed.

Lemma highsierra_board_id_line h :
  exists (b : bool) (s : string), forall w,
    HighSierra.is_supported_board_id h w =
      Return b (emit [ Common.format_line "Board ID" s (if b then "OK" else "Failed") ] w).
Proof.
  unfold HighSierra.is_supported_board_id, bind, HighSierra.get_board_id.
  destruct (Py.in_list
              (if Py.startswith (Py.strip (Common.re_sub_board_id (ioreg_board_id h))) "Mac"
               then Some (Py.strip (Common.re_sub_board_id (ioreg_board_id h)))
               else None) HighSierra.platform_support_values) eqn:E.
  - exists true. eexists. intros w. rewrite get_board_id_run, E. reflexivity.
  - exists false. eexists. intros w. rewrite get_board_id_run, E. reflexivity.
Qed.

(** High Sierra's [main] on a well-formed version: the three checks and the
    virtual-machine test print their lines, then the merge and the exit
    code. *)
Lemma highsierra_main_lines h w v :
  Py.parse_version (ProductVersion h) = Some v ->
  exists (model board version vm : bool) (s1 s2 s3 : string),
    eval (HighSierra.is_supported_model h) w = Some model /\
    eval (HighSierra.is_supported_board_id h) w = Some board /\
    eval (HighSierra.is_system_version_supported h) w = Some version /\
    eval (HighSierra.is_virtual_machine h) w = Some vm /\
    HighSierra.main h w =
      ((if pkg_munki_core h || pkg_gruntwork_munki3 h
        then HighSierra.append_conditional_items h
               {[ "high_sierra_supported" := PBool (vm || (model && board && version)) ]}
        else ret tt);;;
       ret (if vm || (model && board && version) then 0 else 1))
        (emit ([ Common.format_line "Model" s1 (if model then "OK" else "Failed");
                 Common.format_line "Board ID" s2 (if board then "OK" else "Failed");
                 Common.format_line "System" s3 (if version then "OK" else "Failed") ]
               ++ (if vm then [ Common.format_line "Board ID" "Virtual machine" "OK" ]
                   else [])) w).
Proof.
  intros Ev.
  destruct (highsierra_model_line h) as (m & s1 & Hm).
  destruct (highsierra_board_id_line h) as (b & s2 & Hb).
  pose proof (fun w' => highsierra_version_lines h w' v Ev) as Hv.
  assert (Hvm : exists vm : bool, forall w',
             HighSierra.is_virtual_machine h w' =
               Return vm (emit (if vm then [ Common.format_line "Board ID" "Virtual machine" "OK" ]
                                else []) w')).
  { unfold HighSierra.is_virtual_machine, HighSierra.verbose.
    destruct (is_virtual_machine_cases h) as [H | H].
    - by exists true.
    - exists false. intros w'. by rewrite H, emit_nil. }
  destruct Hvm as [vm Hvm].
  eexists m, b, _, vm, s1, s2, _. unfold eval.
  rewrite Hm, Hb, Hv, Hvm.
  do 4 (split; [ reflexivity | ]).
  apply (highsierra_main_run h w _ _ _ _ _ _ _ _ Hm Hb Hv Hvm).
Qed.

(** X10. On a well-formed version, with a store that is usable if munki or
    gruntwork munki is installed, High Sierra's [main] prints the lines of
    the model, the board id and the system in that order, each closed by OK
    or Failed as its check returned, then, on a virtual machine only, the
    virtual-machine line; all three checks are run and reported on a
    virtual machine too. *)
Theorem highsierra_main_prints_its_checks
    (h : host) (w : world) (v : Py.strict_version) (p : string) :
  Py.parse_version (ProductVersion h) = Some v ->
  eval (HighSierra.conditional_items_path h) w = Some p ->
  (pkg_munki_core h || pkg_gruntwork_munki3 h = true -> store_usable w p = true) ->
  exists (model board version vm : bool) (s1 s2 s3 : string) w',
    eval (HighSierra.is_supported_model h) w = Some model /\
    eval (HighSierra.is_supported_board_id h) w = Some board /\
    eval (HighSierra.is_system_version_supported h) w = Some version /\
    eval (HighSierra.is_virtual_machine h) w = Some vm /\
    HighSierra.main h w = Return (if vm || (model && board && version) then 0 else 1) w' /\
    stdout w' =
      (stdout w
       ++ [ Common.format_line "Model" s1 (if model then "OK" else "Failed");
            Common.format_line "Board ID" s2 (if board then "OK" else "Failed");
            Common.format_line "System" s3 (if version then "OK" else "Failed") ]
       ++ (if vm then [ Common.format_line "Board ID" "Virtual machine" "OK" ] else []))%list.
Proof.
  intros Ev Ep Hu.
  pose proof (conditional_items_path_eval HighSierra_10_13 _ _ _ Ep) as Hp.
  destruct (highsierra_main_lines h w v Ev)
    as (m & b & vs & vm & s1 & s2 & s3 & E1 & E2 & E3 & E4 & R).
  exists m, b, vs, vm, s1, s2, s3. rewrite R. unfold bind.
  destruct (pkg_munki_core h || pkg_gruntwork_munki3 h).
  - unfold HighSierra.append_conditional_items.
    rewrite (append_conditional_items_run _ _ p) by (auto; apply Hp).
    eexists. repeat split; try done.
  - eexists. repeat split; try done.
Qed.

Lemma highsierra_main_prints_its_checks_witness :
  exists (model board version vm : bool) (s1 s2 s3 : string) w',
    eval (HighSierra.is_supported_model Examples.guest) Examples.with_store = Some model /\
    eval (HighSierra.is_supported_board_id Examples.guest) Examples.with_store = Some board /\
    eval (HighSierra.is_system_version_supported Examples.guest) Examples.with_store
    = Some version /\
    eval (HighSierra.is_virtual_machine Examples.guest) Examples.with_store = Some vm /\
    HighSierra.main Examples.guest Examples.with_store
    = Return (if vm || (model && board && version) then 0 else 1) w' /\
    stdout w' =
      (stdout Examples.with_store
       ++ [ Common.format_line "Model" s1 (if model then "OK" else "Failed");
            Common.format_line "Board ID" s2 (if board then "OK" else "Failed");
            Common.format_line "System" s3 (if version then "OK" else "Failed") ]
       ++ (if vm then [ Common.format_line "Board ID" "Virtual machine" "OK" ] else []))%list.
Proof.
  apply (highsierra_main_prints_its_checks Examples.guest Examples.with_store
           (plain_version (10, 12, 6)) Examples.default_path);
    vm_compute; reflexivity.
Defined.



(** X12. High Sierra's [main] returns an exit code exactly when the product
    version is well formed and, if munki or gruntwork munki is installed,
    the store is usable.  A product version that does not parse makes it
    raise on a virtual machine as on any other, since the virtual-machine
    test comes after the checks: AttributeError for the empty text,
    ValueError for every other text. *)
Theorem highsierra_main_returns_iff (h : host) (w : world) (p : string) :
  eval (HighSierra.conditional_items_path h) w = Some p ->
  ((exists code, eval (HighSierra.main h) w = Some code) <->
   (exists v, Py.parse_version (ProductVersion h) = Some v) /\
   (pkg_munki_core h || pkg_gruntwork_munki3 h = true -> store_usable w p = true)) /\
  (Py.parse_version (ProductVersion h) = None ->
   exists e lines,
     HighSierra.main h w = Raise e (emit lines w) /\
     (ProductVersion h = EmptyString -> exists msg, e = AttributeError msg) /\
     (ProductVersion h <> EmptyString -> exists msg, e = ValueError msg)).
Proof.
  intros Ep.
  pose proof (conditional_items_path_eval HighSierra_10_13 _ _ _ Ep) as Hp.
  assert (Hbad : Py.parse_version (ProductVersion h) = None ->
            exists e lines,
              HighSierra.main h w = Raise e (emit lines w) /\
              (ProductVersion h = EmptyString -> exists msg, e = AttributeError msg) /\
              (ProductVersion h <> EmptyString -> exists msg, e = ValueError msg)).
  { intros Ev. unfold HighSierra.main.
    destruct (highsierra_model_line h) as (m & s1 & Hm).
    destruct (highsierra_board_id_line h) as (b & s2 & Hb).
    destruct (version_check_raises_by_kind h Ev) as (ey & eh & _ & Hh & He & Hne).
    rewrite (bind_returns _ _ _ _ _ Hm), (bind_returns _ _ _ _ _ Hb).
    unfold bind at 1. rewrite Hh, !emit_emit.
    eexists _, _. split; [ reflexivity | ]. split.
    - intros E0. destruct (He E0) as (msg & _ & ->). eauto.
    - intros E0. destruct (Hne E0) as (msg & _ & ->). eauto. }
  split; [ | exact Hbad ].
  destruct (Py.parse_version (ProductVersion h)) as [v|] eqn:Ev.
  - destruct (highsierra_main_lines h w v Ev)
      as (m & b & vs & vm & s1 & s2 & s3 & _ & _ & _ & _ & R).
    unfold eval. rewrite R. unfold bind.
    destruct (pkg_munki_core h || pkg_gruntwork_munki3 h).
    + unfold HighSierra.append_conditional_items.
      destruct (store_usable w p) eqn:Hu.
      * rewrite (append_conditional_items_run _ _ p) by (auto; apply Hp).
        split; eauto.
      * match goal with
        | |- context [Common.append_conditional_items _ _ ?d ?w0] =>
            destruct (append_conditional_items_unusable
                        HighSierra.conditional_items_path h p d w0 Hp Hu) as [e ->]
        end.
        split; [ by intros [? ?] | ]. intros [_ H]. by specialize (H eq_refl).
    + split; [ intros _; split; [ eauto | discriminate ] | eauto ].
  - destruct (Hbad eq_refl) as (e & lines & R & _).
    unfold eval. rewrite R. split; [ by intros [? ?] | by intros [[? ?] _] ].
Qed.

Lemma highsierra_main_returns_iff_witness :
  (~ exists code,
       eval (HighSierra.main (Examples.guest_with_version EmptyString))
         Examples.fresh = Some code) /\
  (exists msg lines,
     HighSierra.main (Examples.guest_with_version EmptyString) Examples.fresh
     = Raise (AttributeError msg) (emit lines Examples.fresh)).
Proof.
  destruct (highsierra_main_returns_iff (Examples.guest_with_version EmptyString)
              Examples.fresh Examples.default_path eq_refl) as (Hiff & Hbad).
  split.
  - intros Hc. apply Hiff in Hc as [[v Hv] _]. discriminate.
  - destruct (Hbad eq_refl) as (e & lines & R & He & _).
    destruct (He eq_refl) as [msg ->]. eauto.
Defined.

(* ===================================================================== *)
(** ** Versions as printed *)
(* ===================================================================== *)

Lemma append_empty_r (a : string) : a +:+ EmptyString = a.
Proof.
  induction a as [|x a IH]; [ done | ]. by rewrite append_cons, IH.
Qed.

Lemma span_digits_of_uint_append d rest :
  match rest with
  | EmptyString => true
  | String c _ => negb (Py.is_digit c)
  end = true ->
  Py.span_digits (NilEmpty.string_of_uint d +:+ rest)
  = (NilEmpty.string_of_uint d, rest).
Proof.
  intros Hrest. induction d; simpl NilEmpty.string_of_uint;
    rewrite ?append_cons; simpl; rewrite ?IHd; try reflexivity.
  change (EmptyString +:+ rest) with rest.
  destruct rest as [|c r]; [ reflexivity | ].
  simpl. apply negb_true_iff in Hrest. by rewrite Hrest.
Qed.

(** A number that is not negative is printed as a digit followed by
    digits, and [atoi] reads it back. *)
Lemma str_of_int_digits (n : Z) :
  0 <= n ->
  exists c s,
    Py.str_of_int n = String c s /\
    Py.atoi (String c s) = n /\
    forall rest,
      match rest with
      | EmptyString => true
      | String c' _ => negb (Py.is_digit c')
      end = true ->
      Py.span_digits (String c s +:+ rest) = (String c s, rest).
Proof.
  intros Hn. unfold Py.str_of_int.
  assert (H : exists d, d <> Decimal.Nil /\
                NilZero.string_of_int (Z.to_int n) = NilEmpty.string_of_uint d /\
                Z.of_N (Pos.of_uint d) = n).
  { destruct n as [|p|p]; [ | | lia ].
    - exists (Decimal.D0 Decimal.Nil). by repeat split.
    - exists (Pos.to_uint p).
      pose proof (Unsigned.to_uint_nonnil p) as Hp.
      split; [ done | ]. split.
      + change (Z.to_int (Z.pos p)) with (Decimal.Pos (Pos.to_uint p)).
        simpl. by destruct (Pos.to_uint p).
      + by rewrite Unsigned.of_to. }
  destruct H as (d & Hd & -> & Hv).
  pose proof (atoi_of_uint d) as Ha.
  pose proof (span_digits_of_uint_append d) as Hs.
  destruct d; try done; simpl NilEmpty.string_of_uint in *;
    eexists _, _; (split; [ reflexivity | split; [ by rewrite Ha | exact Hs ] ]).
Qed.

(** Printing three numbers with dots between them and reading the text as
    a version gives the three numbers back. *)
Lemma parse_version_printed (a b c : Z) :
  0 <= a -> 0 <= b -> 0 <= c ->
  Py.parse_version (Py.str_of_int a +:+ "." +:+ Py.str_of_int b +:+ "."
                    +:+ Py.str_of_int c)
  = Some (plain_version (a, b, c)).
Proof.
  intros Ha Hb Hc.
  destruct (str_of_int_digits a Ha) as (ca & sa & -> & Va & Sa).
  destruct (str_of_int_digits b Hb) as (cb & sb & -> & Vb & Sb).
  destruct (str_of_int_digits c Hc) as (cc & sc & -> & Vc & Sc).
  unfold Py.parse_version.
  rewrite Sa by reflexivity.
  rewrite (append_cons "." EmptyString). change (EmptyString +:+ ?x) with x.
  cbv beta iota. rewrite Sb by reflexivity.
  rewrite (append_cons "." EmptyString). change (EmptyString +:+ ?x) with x.
  cbv beta iota.
  rewrite <- (append_empty_r (String cc sc)), Sc by reflexivity.
  rewrite ?append_empty_r. cbv beta iota. by rewrite Va, Vb, Vc.
Qed.

Lemma version_ge_plain a b :
  Py.version_ge (plain_version a) (plain_version b) = true <-> ~ lex_lt a b.
Proof.
  unfold Py.version_ge. rewrite Z.leb_le.
  destruct (version_cmp_plain a b) as (H & _ & _). rewrite <- H. lia.
Qed.

(** X13. For a product version printed as three numbers [a.b.c], Yosemite's
    version check returns True exactly when [(10,6,6) <= (a,b,c) < (10,10,0)]
    in the order by components, and High Sierra's exactly when
    [(10,8,0) <= (a,b,c) < (10,13,0)]; both return False outside their
    range.  For OS X [10.m.p] that is: Yosemite's passes for [m = 6] with
    [p >= 6] and for [7 <= m <= 9], High Sierra's for [8 <= m <= 12],
    whatever [p] is. *)
Theorem version_checks_on_printed_versions (h : host) (w : world) (a b c : Z) :
  0 <= a -> 0 <= b -> 0 <= c ->
  ProductVersion h
  = Py.str_of_int a +:+ "." +:+ Py.str_of_int b +:+ "." +:+ Py.str_of_int c ->
  (exists r, eval (Yosemite.is_system_version_supported h) w = Some r /\
     (r = true <-> ~ lex_lt (a, b, c) (10, 6, 6) /\ lex_lt (a, b, c) (10, 10, 0)) /\
     (a = 10 -> (r = true <-> (b = 6 /\ 6 <= c) \/ 7 <= b <= 9))) /\
  (exists r, eval (HighSierra.is_system_version_supported h) w = Some r /\
     (r = true <-> ~ lex_lt (a, b, c) (10, 8, 0) /\ lex_lt (a, b, c) (10, 13, 0)) /\
     (a = 10 -> (r = true <-> 8 <= b <= 12))).
Proof.
  intros Ha Hb Hc Ev.
  pose proof (parse_version_printed a b c Ha Hb Hc) as Ep. rewrite <- Ev in Ep.
  split; eexists;
    (split; [ first [ apply (yosemite_version_run h w _ Ep)
                    | apply (highsierra_version_run h w _ Ep) ] | ]);
    rewrite andb_true_iff, negb_true_iff, <- not_true_iff_false, !version_ge_plain;
    unfold lex_lt; split; try intros ->; lia.
Qed.

Lemma version_checks_on_printed_versions_witness :
  (exists r, eval (Yosemite.is_system_version_supported Examples.imac) Examples.fresh
             = Some r /\
     (r = true <-> ~ lex_lt (10, 9, 5) (10, 6, 6) /\ lex_lt (10, 9, 5) (10, 10, 0)) /\
     (10 = 10 -> (r = true <-> (9 = 6 /\ 6 <= 5) \/ 7 <= 9 <= 9))) /\
  (exists r, eval (HighSierra.is_system_version_supported Examples.imac) Examples.fresh
             = Some r /\
     (r = true <-> ~ lex_lt (10, 9, 5) (10, 8, 0) /\ lex_lt (10, 9, 5) (10, 13, 0)) /\
     (10 = 10 -> (r = true <-> 8 <= 9 <= 12))).
Proof.
  apply (version_checks_on_printed_versions Examples.imac Examples.fresh 10 9 5);
    (lia || reflexivity).
Defined.

(* ===================================================================== *)
(** ** The path of the store and the shape of a printed line *)
(* ===================================================================== *)

Lemma last_char_split (a : string) (c : ascii) :
  String.get (String.length a - 1) a = Some c ->
  exists a', a = a' +:+ String c EmptyString.
Proof.
  induction a as [|x a IH]; [ done | ].
  destruct a as [|y a].
  - simpl. intros [= ->]. by exists EmptyString.
  - replace (String.length (String x (String y a)) - 1)%nat
      with (S (String.length (String y a) - 1)) by (simpl; lia).
    simpl String.get at 1. intros H. destruct (IH H) as [a' ->].
    by exists (String x a').
Qed.

Lemma path_join_file_name (a : string) :
  exists dir, Py.path_join a "ConditionalItems.plist"
              = dir +:+ "/ConditionalItems.plist"
  \/ (a = EmptyString /\ Py.path_join a "ConditionalItems.plist" = "ConditionalItems.plist").
Proof.
  unfold Py.path_join.
  destruct (String.get (String.length a - 1) a) as [c|] eqn:E.
  - destruct (last_char_split a c E) as [a' ->].
    destruct (Ascii.eqb_spec c "/") as [-> | N].
    + exists a'. left. by rewrite append_assoc.
    + exists (a' +:+ String c EmptyString). left.
      destruct c as [[] [] [] [] [] [] [] []]; try reflexivity. done.
  - exists EmptyString. right. split; [ | done ].
    destruct a as [|x a]; [ done | ].
    exfalso. revert E. generalize x. induction a as [|y a IH]; intros x0; [ done | ].
    replace (String.length (String x0 (String y a)) - 1)%nat
      with (S (String.length (String y a) - 1)) by (simpl; lia).
    simpl String.get at 1. apply IH.
Qed.

(** X14. The path either script writes the flag to always names the file
    ConditionalItems.plist in some directory; without a usable preference
    (none or an empty one for Yosemite, blank output of [defaults] for High
    Sierra) it is the munki default. *)
Theorem conditional_items_path_names_the_file (r : release) (h : host) (w : world) :
  (exists dir, conditional_items_path_of r h w
               = Return (dir +:+ "/ConditionalItems.plist") w) /\
  (pref_ManagedInstallDir h = None \/ pref_ManagedInstallDir h = Some EmptyString ->
   Yosemite.conditional_items_path h w
   = Return "/Library/Managed Installs/ConditionalItems.plist" w) /\
  (Py.strip (defaults_ManagedInstallDir h) = EmptyString ->
   HighSierra.conditional_items_path h w
   = Return "/Library/Managed Installs/ConditionalItems.plist" w).
Proof.
  split; [ | split ].
  - destruct r; simpl.
    + unfold Yosemite.conditional_items_path.
      destruct (pref_ManagedInstallDir h) as [[|c d]|];
        try (by exists "/Library/Managed Installs").
      destruct (path_join_file_name (String c d)) as [dir [-> | [? _]]]; [ | done ].
      by exists dir.
    + unfold HighSierra.conditional_items_path.
      destruct (Py.strip (defaults_ManagedInstallDir h)) as [|c d] eqn:E;
        [ by exists "/Library/Managed Installs" | ].
      simpl Py.bool_of_str. cbv iota.
      destruct (path_join_file_name (String c d)) as [dir [-> | [? _]]]; [ | done ].
      by exists dir.
  - unfold Yosemite.conditional_items_path. by intros [-> | ->].
  - unfold HighSierra.conditional_items_path. by intros ->.
Qed.

(** X15. A line of [logger] is never cut: the label is right-justified in 14
    columns and the status left-justified in 40, so whenever the label has
    at most 14 characters and the status at most 40, the bracket with the
    result opens at column 56 and the line is 59 characters plus the
    result. *)
Theorem format_line_columns (message status info : string) :
  (String.length message <= 14)%nat ->
  (String.length status <= 40)%nat ->
  exists pad1 pad2,
    Common.format_line message status info
    = (Py.spaces pad1 +:+ message +:+ ": " +:+ status +:+ Py.spaces pad2)
      +:+ " [" +:+ info +:+ "]" /\
    String.length (Py.spaces pad1 +:+ message +:+ ": " +:+ status +:+ Py.spaces pad2) = 56%nat /\
    String.length (Common.format_line message status info)
    = (59 + String.length info)%nat.
Proof.
  intros Hm Hs.
  exists (14 - String.length message)%nat, (40 - String.length status)%nat.
  unfold Common.format_line, Py.rjust, Py.ljust.
  split; [ by rewrite !append_assoc | ].
  rewrite !length_append, !length_spaces. simpl String.length. lia.
Qed.

Lemma format_line_columns_witness :
  exists pad1 pad2,
    Common.format_line "Board ID" "Virtual machine" "OK"
    = (Py.spaces pad1 +:+ "Board ID" +:+ ": " +:+ "Virtual machine" +:+ Py.spaces pad2)
      +:+ " [" +:+ "OK" +:+ "]" /\
    String.length (Py.spaces pad1 +:+ "Board ID" +:+ ": " +:+ "Virtual machine"
                   +:+ Py.spaces pad2) = 56%nat /\
    String.length (Common.format_line "Board ID" "Virtual machine" "OK")
    = (59 + String.length "OK")%nat.
Proof.
  apply (format_line_columns "Board ID" "Virtual machine" "OK"); simpl; lia.
Defined.

(* ===================================================================== *)
(** ** Versions of fewer or more than three numbers *)
(* ===================================================================== *)

Lemma parse_version_printed_two (a b : Z) :
  0 <= a -> 0 <= b ->
  Py.parse_version (Py.str_of_int a +:+ "." +:+ Py.str_of_int b)
  = Some (plain_version (a, b, 0)).
Proof.
  intros Ha Hb.
  destruct (str_of_int_digits a Ha) as (ca & sa & -> & Va & Sa).
  destruct (str_of_int_digits b Hb) as (cb & sb & -> & Vb & Sb).
  unfold Py.parse_version.
  rewrite Sa by reflexivity.
  rewrite (append_cons "." EmptyString). change (EmptyString +:+ ?x) with x.
  cbv beta iota.
  rewrite <- (append_empty_r (String cb sb)), Sb by reflexivity.
  rewrite ?append_empty_r. cbv beta iota. by rewrite Va, Vb.
Qed.

Lemma parse_version_printed_one (a : Z) :
  0 <= a -> Py.parse_version (Py.str_of_int a) = None.
Proof.
  intros Ha.
  destruct (str_of_int_digits a Ha) as (ca & sa & -> & Va & Sa).
  unfold Py.parse_version.
  rewrite <- (append_empty_r (String ca sa)), Sa by reflexivity.
  reflexivity.
Qed.

Lemma parse_version_printed_four (a b c d : Z) :
  0 <= a -> 0 <= b -> 0 <= c -> 0 <= d ->
  Py.parse_version (Py.str_of_int a +:+ "." +:+ Py.str_of_int b +:+ "."
                    +:+ Py.str_of_int c +:+ "." +:+ Py.str_of_int d)
  = None.
Proof.
  intros Ha Hb Hc Hd.
  destruct (str_of_int_digits a Ha) as (ca & sa & -> & Va & Sa).
  destruct (str_of_int_digits b Hb) as (cb & sb & -> & Vb & Sb).
  destruct (str_of_int_digits c Hc) as (cc & sc & -> & Vc & Sc).
  destruct (str_of_int_digits d Hd) as (cd & sd & -> & Vd & Sd).
  unfold Py.parse_version.
  rewrite Sa by reflexivity.
  rewrite (append_cons "." EmptyString). change (EmptyString +:+ ?x) with x.
  cbv beta iota. rewrite Sb by reflexivity.
  rewrite (append_cons "." EmptyString). change (EmptyString +:+ ?x) with x.
  cbv beta iota. rewrite Sc by reflexivity.
  rewrite (append_cons "." EmptyString). change (EmptyString +:+ ?x) with x.
  reflexivity.
Qed.

(** X16. A product version of two numbers [a.b] is read with patch level 0,
    so both version checks answer as for [a.b.0].  A product version of one
    number, or of four, is no version for [StrictVersion]: both checks raise
    instead of returning False. *)
Theorem version_checks_on_other_shapes
    (h1 h2 h4 : host) (w : world) (a b c d : Z) :
  0 <= a -> 0 <= b -> 0 <= c -> 0 <= d ->
  ProductVersion h1 = Py.str_of_int a ->
  ProductVersion h2 = Py.str_of_int a +:+ "." +:+ Py.str_of_int b ->
  ProductVersion h4 = Py.str_of_int a +:+ "." +:+ Py.str_of_int b +:+ "."
                      +:+ Py.str_of_int c +:+ "." +:+ Py.str_of_int d ->
  eval (Yosemite.is_system_version_supported h2) w =
    Some (negb (Py.version_ge (plain_version (a, b, 0)) (plain_version (10, 10, 0)))
          && Py.version_ge (plain_version (a, b, 0)) (plain_version (10, 6, 6))) /\
  eval (HighSierra.is_system_version_supported h2) w =
    Some (negb (Py.version_ge (plain_version (a, b, 0)) (plain_version (10, 13, 0)))
          && Py.version_ge (plain_version (a, b, 0)) (plain_version (10, 8, 0))) /\
  eval (Yosemite.is_system_version_supported h1) w = None /\
  eval (HighSierra.is_system_version_supported h1) w = None /\
  eval (Yosemite.is_system_version_supported h4) w = None /\
  eval (HighSierra.is_system_version_supported h4) w = None.
Proof.
  intros Ha Hb Hc Hd E1 E2 E4.
  pose proof (parse_version_printed_two a b Ha Hb) as P2. rewrite <- E2 in P2.
  pose proof (parse_version_printed_one a Ha) as P1. rewrite <- E1 in P1.
  pose proof (parse_version_printed_four a b c d Ha Hb Hc Hd) as P4.
  rewrite <- E4 in P4.
  rewrite (yosemite_version_run h2 w _ P2), (highsierra_version_run h2 w _ P2).
  destruct (version_check_raises_on_malformed h1 w P1) as [-> ->].
  destruct (version_check_raises_on_malformed h4 w P4) as [-> ->].
  done.
Qed.

Lemma version_checks_on_other_shapes_witness :
  eval (Yosemite.is_system_version_supported (Examples.with_version "10.10"))
    Examples.fresh =
    Some (negb (Py.version_ge (plain_version (10, 10, 0)) (plain_version (10, 10, 0)))
          && Py.version_ge (plain_version (10, 10, 0)) (plain_version (10, 6, 6))) /\
  eval (HighSierra.is_system_version_supported (Examples.with_version "10.10"))
    Examples.fresh =
    Some (negb (Py.version_ge (plain_version (10, 10, 0)) (plain_version (10, 13, 0)))
          && Py.version_ge (plain_version (10, 10, 0)) (plain_version (10, 8, 0))) /\
  eval (Yosemite.is_system_version_supported (Examples.with_version "10"))
    Examples.fresh = None /\
  eval (HighSierra.is_system_version_supported (Examples.with_version "10"))
    Examples.fresh = None /\
  eval (Yosemite.is_system_version_supported (Examples.with_version "10.10.5.1"))
    Examples.fresh = None /\
  eval (HighSierra.is_system_version_supported (Examples.with_version "10.10.5.1"))
    Examples.fresh = None.
Proof.
  apply (version_checks_on_other_shapes (Examples.with_version "10")
           (Examples.with_version "10.10") (Examples.with_version "10.10.5.1")
           Examples.fresh 10 10 5 1); (lia || reflexivity).
Defined.
